(** * Rematch_Manager: a shallow embedding of [rematch_manager.py]

    The file has three parts.
    - [Py]: the Python built-ins the manager calls ([str.lower],
      [str.split], [float], [int], float multiplication), on ASCII strings
      and IEEE-754 binary64 values.
    - the manager itself: its data, its methods as state-passing functions
      that may raise, and the states reachable from [__init__].
    - the properties of the manager. *)

From Stdlib Require Import ZArith NArith String Ascii List Bool Lia.
From Stdlib Require Import SpecFloat.
From stdpp Require Import base option gmap strings.

Import ListNotations.
Local Open Scope string_scope.
Local Open Scope Z_scope.

(** ** Exceptions

    A call either returns a value or raises.  Only the exception classes
    that the manager's [try]/[except] tells apart are listed. *)

Inductive exception := ValueError | AttributeError | OverflowError.

Inductive result (A : Type) : Type :=
| Return (a : A)
| Raise (e : exception).

Arguments Return {A} a.
Arguments Raise {A} e.

#[global] Instance result_ret : MRet result := @Return.

#[global] Instance result_bind : MBind result := fun A B k r =>
  match r with
  | Return a => k a
  | Raise e => Raise e
  end.

(** ** Python built-ins *)

Module Py.

(** Strings are sequences of ASCII characters, as Lichess user names and
    clock strings are. *)

Definition is_upper (c : ascii) : bool :=
  (65 <=? Z.of_N (N_of_ascii c)) && (Z.of_N (N_of_ascii c) <=? 90).

Definition lower_ascii (c : ascii) : ascii :=
  if is_upper c then ascii_of_N (N_of_ascii c + 32) else c.

(** [str.lower()] *)
Fixpoint lower (s : string) : string :=
  match s with
  | EmptyString => EmptyString
  | String c r => String (lower_ascii c) (lower r)
  end.

(** [str.split(sep)] for a one-character separator: the pieces between
    the separators, in order; never the empty list. *)
Fixpoint split (sep : ascii) (s : string) : list string :=
  match s with
  | EmptyString => [EmptyString]
  | String c r =>
      if Ascii.eqb c sep then EmptyString :: split sep r
      else match split sep r with
           | h :: t => String c h :: t
           | [] => [String c EmptyString]
           end
  end.

(** [a, b = l]: unpacking into two names raises ValueError unless the
    list has exactly two items. *)
Definition unpack2 {A} (l : list A) : result (A * A) :=
  match l with
  | [a; b] => Return (a, b)
  | _ => Raise ValueError
  end.

(** *** Characters of numeric literals *)

Definition is_space (c : ascii) : bool :=
  let n := Z.of_N (N_of_ascii c) in
  ((9 <=? n) && (n <=? 13)) || (n =? 32).

Definition is_digit (c : ascii) : bool :=
  let n := Z.of_N (N_of_ascii c) in (48 <=? n) && (n <=? 57).

Definition digit_val (c : ascii) : Z := Z.of_N (N_of_ascii c) - 48.

Fixpoint lstrip (l : list ascii) : list ascii :=
  match l with
  | c :: r => if is_space c then lstrip r else l
  | [] => []
  end.

Definition strip (l : list ascii) : list ascii :=
  rev (lstrip (rev (lstrip l))).

(** An optional sign; [true] is minus. *)
Definition take_sign (l : list ascii) : bool * list ascii :=
  match l with
  | "+"%char :: r => (false, r)
  | "-"%char :: r => (true, r)
  | _ => (false, l)
  end.

(** Underscores in a numeric literal: each one stands between two digits.
    [drop_underscores prev l] removes them, or fails; [prev] is the
    character before [l]. *)
Fixpoint drop_underscores (prev : option ascii) (l : list ascii)
  : option (list ascii) :=
  match l with
  | [] => match prev with
          | Some "_"%char => None
          | _ => Some []
          end
  | c :: r =>
      if Ascii.eqb c "_" then
        match prev with
        | Some p => if is_digit p then drop_underscores (Some c) r else None
        | None => None
        end
      else
        match prev with
        | Some "_"%char =>
            if is_digit c then option_map (cons c) (drop_underscores (Some c) r)
            else None
        | _ => option_map (cons c) (drop_underscores (Some c) r)
        end
  end.

(** The leading run of digits of [l], and what follows it. *)
Fixpoint span_digits (l : list ascii) : list ascii * list ascii :=
  match l with
  | c :: r =>
      if is_digit c then let '(d, t) := span_digits r in (c :: d, t)
      else ([], l)
  | [] => ([], [])
  end.

(** The number a run of decimal digits writes. *)
Definition digits_val (d : list ascii) : Z :=
  fold_left (fun acc c => 10 * acc + digit_val c) d 0.

(** *** [int(str)]

    Surrounding white space, an optional sign, then decimal digits with
    single underscores between them.  [max_str_digits] is
    [sys.get_int_max_str_digits()]: when it is positive, a literal with
    more digits than that raises ValueError. *)
Definition int_of_str (max_str_digits : nat) (s : string) : result Z :=
  let '(neg, body) := take_sign (strip (list_ascii_of_string s)) in
  match drop_underscores None body with
  | None => Raise ValueError
  | Some ds =>
      match ds with
      | [] => Raise ValueError
      | _ :: _ =>
          if forallb is_digit ds then
            if (0 <? max_str_digits)%nat && (max_str_digits <? length ds)%nat
            then Raise ValueError
            else Return (if neg then - digits_val ds else digits_val ds)
          else Raise ValueError
      end
  end.

(** *** Floats: IEEE-754 binary64 *)

Definition prec : Z := 53.
Definition emax : Z := 1024.

Abbreviation float := spec_float.

(** The float nearest to the integer [n] (ties to even). *)
Definition float_of_Z (n : Z) : float := binary_normalize prec emax n 0 false.

(** The float nearest to [± d * 10^e] for [d >= 0] (ties to even): the
    value of a decimal literal with digits [d] and decimal exponent [e]. *)
Definition float_of_decimal (neg : bool) (d e : Z) : float :=
  match d with
  | Zpos m =>
      if 0 <=? e then binary_normalize prec emax (cond_Zopp neg (d * 10 ^ e)) 0 neg
      else SFdiv prec emax (S754_finite neg m 0)
                           (S754_finite false (Z.to_pos (10 ^ (- e))) 0)
  | _ => S754_zero neg
  end.

(** [x * y] on floats. *)
Definition fmul (x y : float) : float := SFmul prec emax x y.

(** [int(x)] for a float: truncation toward zero; infinities raise
    OverflowError and NaN raises ValueError. *)
Definition int_of_float (x : float) : result Z :=
  match x with
  | S754_zero _ => Return 0
  | S754_infinity _ => Raise OverflowError
  | S754_nan => Raise ValueError
  | S754_finite s m e =>
      Return (cond_Zopp s (if 0 <=? e then Zpos m * 2 ^ e
                           else Zpos m / 2 ^ (- e)))
  end.

(** [round(x)] for a float: the nearest integer, ties to the even one.
    The manager never calls it; it is the rounding that the
    specification's formula [round(minutes * 60)] names. *)
Definition round_float (x : float) : result Z :=
  match x with
  | S754_zero _ => Return 0
  | S754_infinity _ => Raise OverflowError
  | S754_nan => Raise ValueError
  | S754_finite s m e =>
      Return (cond_Zopp s
        (if 0 <=? e then Zpos m * 2 ^ e
         else let q := Zpos m / 2 ^ (- e) in
              let r := Zpos m mod 2 ^ (- e) in
              match 2 * r ?= 2 ^ (- e) with
              | Lt => q
              | Gt => q + 1
              | Eq => if Z.even q then q else q + 1
              end))
  end.

(** *** [float(str)]

    Surrounding white space, an optional sign, then [inf], [infinity] or
    [nan] in any case, or a decimal literal: digits with an optional
    point, at least one digit, and an optional exponent. *)

Definition is_exp_mark (c : ascii) : bool :=
  Ascii.eqb c "e" || Ascii.eqb c "E".

(** The exponent part: nothing, or [e], an optional sign and digits. *)
Definition parse_exponent (l : list ascii) : option Z :=
  match l with
  | [] => Some 0
  | c :: r =>
      if is_exp_mark c then
        let '(neg, r') := take_sign r in
        match span_digits r' with
        | ((_ :: _) as d, []) => Some (cond_Zopp neg (digits_val d))
        | _ => None
        end
      else None
  end.

Definition float_of_literal (neg : bool) (l : list ascii) : result float :=
  let '(ip, r1) := span_digits l in
  let '(fp, r2) :=
    match r1 with
    | "."%char :: r => span_digits r
    | _ => ([], r1)
    end in
  match (ip ++ fp)%list with
  | [] => Raise ValueError
  | _ :: _ =>
      match parse_exponent r2 with
      | None => Raise ValueError
      | Some x =>
          Return (float_of_decimal neg (digits_val (ip ++ fp)%list)
                                   (x - Z.of_nat (length fp)))
      end
  end.

Definition float_of_str (s : string) : result float :=
  match drop_underscores None (strip (list_ascii_of_string s)) with
  | None => Raise ValueError
  | Some l =>
      let '(neg, body) := take_sign l in
      let word := lower (string_of_list_ascii body) in
      if String.eqb word "inf" || String.eqb word "infinity"
      then Return (S754_infinity neg)
      else if String.eqb word "nan" then Return S754_nan
      else float_of_literal neg body
  end.

(** [sep.join(l)] *)
Fixpoint join (sep : string) (l : list string) : string :=
  match l with
  | [] => EmptyString
  | [x] => x
  | x :: r => x ++ sep ++ join sep r
  end.

End Py.

(** ** Data of the manager *)

(** The two members of [enums.Challenge_Color] that the manager uses. *)
Inductive Challenge_Color := WHITE | BLACK.

(** [botli_dataclasses.Game_Information], with the fields the manager's
    rematch logic reads. *)
Record Game_Information := {
  white_name : string;
  black_name : string;
  rated : bool;
  tc_str : string;
  variant : string
}.

(** [config.rematch], with the two settings the manager reads. *)
Record Rematch_Config := {
  delay_seconds : Z;
  timeout_seconds : Z
}.

Record Config := { rematch : Rematch_Config }.

Section Manager.

(** [enums.Variant] is an enumeration looked up by value: [Variant(x)]
    is the member whose value is [x], and raises ValueError when there is
    none.  The enumeration is a parameter of the development. *)
Variable Variant : Type.
Variable Variant_of : string -> option Variant.

(** [sys.get_int_max_str_digits()], the interpreter's limit on the length
    of integer literals given to [int]; 0 means no limit. *)
Variable int_max_str_digits : nat.

(** [botli_dataclasses.Challenge_Request], in the order of the
    constructor's arguments. *)
Record Challenge_Request := {
  opponent_username : string;
  initial_time : Z;
  increment : Z;
  challenge_rated : bool;
  color : Challenge_Color;
  challenge_variant : Variant;
  timeout : Z
}.

(** The attributes of a [Rematch_Manager] object.  [api] is never read. *)
Record Rematch_Manager := {
  config : Config;
  username : string;
  rematch_counts : gmap string Z;
  last_game_info : option Game_Information;
  pending_rematch : option string;
  rematch_offered : bool
}.

(** [Rematch_Manager.__init__] *)
Definition __init__ (config : Config) (username : string) : Rematch_Manager :=
  {| config := config;
     username := username;
     rematch_counts := ∅;
     last_game_info := None;
     pending_rematch := None;
     rematch_offered := false |}.

(** [dict.get(key, 0)] *)
Definition get_count (counts : gmap string Z) (key : string) : Z :=
  default 0 (counts !! key).

(** Truth value of a string: empty strings are false. *)
Definition truthy (s : string) : bool := negb (String.eqb s "").

(** Truth value of an optional string: [None] and [""] are false. *)
Definition truthy_opt (o : option string) : bool :=
  match o with
  | Some s => truthy s
  | None => false
  end.

(** [game_info.white_name.lower() == self.username.lower()] *)
Definition plays_white (self : Rematch_Manager) (game_info : Game_Information) : bool :=
  String.eqb (Py.lower (white_name game_info)) (Py.lower (username self)).

(** [game_info.black_name.lower() == self.username.lower()] *)
Definition plays_black (self : Rematch_Manager) (game_info : Game_Information) : bool :=
  String.eqb (Py.lower (black_name game_info)) (Py.lower (username self)).

(** ** Methods

    A method that assigns to [self] returns the new object; a method that
    may raise returns a [result]. *)

Definition _get_opponent_name (self : Rematch_Manager)
    (game_info : Game_Information) : option string :=
  if plays_white self game_info then Some (black_name game_info)
  else if plays_black self game_info then Some (white_name game_info)
  else None.

Definition should_offer_rematch (self : Rematch_Manager)
    (game_info : Game_Information) (game_result : string)
    (winner : option string) : bool :=
  let opponent_name := _get_opponent_name self game_info in
  if negb (truthy_opt opponent_name) then false
  else
    let opponent_key := Py.lower (default "" opponent_name) in
    match pending_rematch self with
    | Some p => if String.eqb p opponent_key then false else true
    | None => true
    end.

(** The body of the [try] block of [_create_rematch_challenge]. *)
Definition create_rematch_challenge_try (self : Rematch_Manager)
    (game_info : Game_Information) (opponent_name : string)
  : result Challenge_Request :=
  let color := if plays_white self game_info then BLACK else WHITE in
  '(initial_time_str, increment_str) ←
      Py.unpack2 (Py.split "+" (tc_str game_info));
  minutes ← Py.float_of_str initial_time_str;
  initial_time ← Py.int_of_float (Py.fmul minutes (Py.float_of_Z 60));
  increment ← Py.int_of_str int_max_str_digits increment_str;
  variant ← match Variant_of (variant game_info) with
            | Some v => Return v
            | None => Raise ValueError
            end;
  Return {| opponent_username := opponent_name;
            initial_time := initial_time;
            increment := increment;
            challenge_rated := rated game_info;
            color := color;
            challenge_variant := variant;
            timeout := timeout_seconds (rematch (config self)) |}.

(** [except (ValueError, AttributeError)]: these two give [None]; any
    other exception leaves the method. *)
Definition _create_rematch_challenge (self : Rematch_Manager)
    (game_info : Game_Information) (opponent_name : string)
  : result (option Challenge_Request) :=
  match create_rematch_challenge_try self game_info opponent_name with
  | Return request => Return (Some request)
  | Raise ValueError | Raise AttributeError => Return None
  | Raise e => Raise e
  end.

(** [offer_rematch], run to completion: the wait of [delay_seconds]
    between resolving the opponent and building the challenge reads and
    writes nothing.  The second component is the object when the call
    returns or raises. *)
Definition offer_rematch (self : Rematch_Manager)
    (game_info : Game_Information) : result bool * Rematch_Manager :=
  match _get_opponent_name self game_info with
  | None => (Return false, self)
  | Some opponent_name =>
      if negb (truthy opponent_name) then (Return false, self)
      else
        match _create_rematch_challenge self game_info opponent_name with
        | Raise e => (Raise e, self)
        | Return None => (Return false, self)
        | Return (Some challenge_request) =>
            let opponent_key := Py.lower opponent_name in
            (Return true,
             {| config := config self;
                username := username self;
                rematch_counts :=
                  <[opponent_key := get_count (rematch_counts self) opponent_key + 1]>
                    (rematch_counts self);
                last_game_info := Some game_info;
                pending_rematch := Some opponent_key;
                rematch_offered := false |})
        end
  end.

Definition on_rematch_accepted (self : Rematch_Manager)
    (opponent_name : string) : Rematch_Manager :=
  {| config := config self;
     username := username self;
     rematch_counts := rematch_counts self;
     last_game_info := last_game_info self;
     pending_rematch := None;
     rematch_offered := false |}.

Definition on_rematch_declined (self : Rematch_Manager)
    (opponent_name : string) : Rematch_Manager :=
  {| config := config self;
     username := username self;
     rematch_counts := rematch_counts self;
     last_game_info := last_game_info self;
     pending_rematch := None;
     rematch_offered := false |}.

Definition on_game_finished (self : Rematch_Manager)
    (opponent_name : string) : Rematch_Manager :=
  {| config := config self;
     username := username self;
     rematch_counts := rematch_counts self;
     last_game_info := last_game_info self;
     pending_rematch := pending_rematch self;
     rematch_offered := false |}.

Definition clear_pending_rematch (self : Rematch_Manager) : Rematch_Manager :=
  {| config := config self;
     username := username self;
     rematch_counts := rematch_counts self;
     last_game_info := None;
     pending_rematch := None;
     rematch_offered := false |}.

Definition get_rematch_challenge_request (self : Rematch_Manager)
  : result (option Challenge_Request) :=
  match pending_rematch self, last_game_info self with
  | Some pending, Some game_info =>
      if truthy pending
      then _create_rematch_challenge self game_info pending
      else Return None
  | _, _ => Return None
  end.

(** ** Calls and reachable states *)

Inductive call :=
| Should_offer_rematch (game_info : Game_Information)
                       (game_result : string) (winner : option string)
| Offer_rematch (game_info : Game_Information)
| On_rematch_accepted (opponent_name : string)
| On_rematch_declined (opponent_name : string)
| On_game_finished (opponent_name : string)
| Clear_pending_rematch
| Get_rematch_challenge_request.

(** The object after a call, whether the call returned or raised. *)
Definition step (c : call) (self : Rematch_Manager) : Rematch_Manager :=
  match c with
  | Should_offer_rematch _ _ _ => self
  | Offer_rematch game_info => snd (offer_rematch self game_info)
  | On_rematch_accepted n => on_rematch_accepted self n
  | On_rematch_declined n => on_rematch_declined self n
  | On_game_finished n => on_game_finished self n
  | Clear_pending_rematch => clear_pending_rematch self
  | Get_rematch_challenge_request => self
  end.

(** The states of a manager built by [__init__] and used through its
    public methods. *)
Inductive reachable : Rematch_Manager -> Prop :=
| reachable_init cfg name : reachable (__init__ cfg name)
| reachable_step c self : reachable self -> reachable (step c self).

End Manager.

Arguments Challenge_Request Variant : clear implicits.
Arguments opponent_username {Variant} _.
Arguments initial_time {Variant} _.
Arguments increment {Variant} _.
Arguments challenge_rated {Variant} _.
Arguments color {Variant} _.
Arguments challenge_variant {Variant} _.
Arguments timeout {Variant} _.
Arguments create_rematch_challenge_try {Variant} Variant_of int_max_str_digits
  self game_info opponent_name.
Arguments _create_rematch_challenge {Variant} Variant_of int_max_str_digits
  self game_info opponent_name.
Arguments offer_rematch {Variant} Variant_of int_max_str_digits self game_info.
Arguments get_rematch_challenge_request {Variant} Variant_of int_max_str_digits
  self.
Arguments step {Variant} Variant_of int_max_str_digits c self.
Arguments reachable {Variant} Variant_of int_max_str_digits _.
Arguments reachable_init {Variant} Variant_of int_max_str_digits cfg name.
Arguments reachable_step {Variant} Variant_of int_max_str_digits c self _.

(** What a pending offer guarantees: the key is not empty, the snapshot
    is stored, the bot is one of its players, and the challenge can be
    built from it. *)
Definition pending_backed {Variant : Type}
    (Variant_of : string -> option Variant) (int_max_str_digits : nat)
    (self : Rematch_Manager) : Prop :=
  forall key, pending_rematch self = Some key ->
    truthy key = true /\
    exists game_info request,
      last_game_info self = Some game_info /\
      plays_white self game_info || plays_black self game_info = true /\
      create_rematch_challenge_try Variant_of int_max_str_digits
        self game_info key = Return request.

(** ** A session used in the examples

    The closed examples run the manager of the bot [NS2Bot] with a
    Variant enumeration that has the member [standard], and with the
    interpreter's default limit on integer literals. *)

Inductive Std_Variant := STANDARD.

Definition Std_Variant_of (s : string) : option Std_Variant :=
  if String.eqb s "standard" then Some STANDARD else None.

Definition default_max_str_digits : nat := 4300.

Definition bot_config : Config :=
  {| rematch := {| delay_seconds := 0; timeout_seconds := 30 |} |}.

Definition bot : Rematch_Manager := __init__ bot_config "NS2Bot".

(** A finished rated game of the bot, as white, against [Alice]. *)
Definition game_vs (opponent tc : string) (var : string) : Game_Information :=
  {| white_name := "ns2bot";
     black_name := opponent;
     rated := true;
     tc_str := tc;
     variant := var |}.

Definition game_alice : Game_Information := game_vs "Alice" "3+2" "standard".
Definition game_bob : Game_Information := game_vs "Bob" "5+3" "standard".

(** A time control of a sixteenth of a minute: 3.75 seconds. *)
Definition game_sixteenth : Game_Information :=
  game_vs "Alice" "0.0625+0" "standard".

(** A snapshot with an infinite number of minutes and a variant that the
    enumeration does not have. *)
Definition game_inf : Game_Information := game_vs "Alice" "inf+0" "nosuchvariant".

(** A game between two other players. *)
Definition game_of_others : Game_Information :=
  {| white_name := "Carol";
     black_name := "Dave";
     rated := true;
     tc_str := "3+2";
     variant := "standard" |}.

(** The manager after [n] offers of a rematch for [game_info]. *)
Fixpoint after_offers (n : nat) (game_info : Game_Information) : Rematch_Manager :=
  match n with
  | O => bot
  | S k => snd (offer_rematch Std_Variant_of default_max_str_digits
                  (after_offers k game_info) game_info)
  end.

(** ** Titles and ratings

    The title and rating attributes of a [Game_Information] object, beside
    the attributes of [game]: the manager's helpers read them and nothing
    else does. *)
Record Game_Information_players := {
  game : Game_Information;
  white_title : option string;
  white_rating : option Z;
  black_title : option string;
  black_rating : option Z
}.

(** [title == 'BOT'] for an optional title. *)
Definition is_BOT (title : option string) : bool :=
  match title with
  | Some t => String.eqb t "BOT"
  | None => false
  end.

Definition _is_opponent_bot (self : Rematch_Manager)
    (game_info : Game_Information_players) : bool :=
  if plays_white self (game game_info) then is_BOT (black_title game_info)
  else is_BOT (white_title game_info).

Definition _check_rating_constraints (self : Rematch_Manager)
    (game_info : Game_Information_players) : bool := true.

Definition _get_our_rating (self : Rematch_Manager)
    (game_info : Game_Information_players) : option Z :=
  if plays_white self (game game_info) then white_rating game_info
  else black_rating game_info.

Definition _get_opponent_rating (self : Rematch_Manager)
    (game_info : Game_Information_players) : option Z :=
  if plays_white self (game game_info) then black_rating game_info
  else white_rating game_info.

(** ** Sequences of calls *)

Section Calls.

Context {Variant : Type}.
Variable Variant_of : string -> option Variant.
Variable int_max_str_digits : nat.

(** The object after the calls of a list, in order. *)
Fixpoint run_calls (calls : list call) (self : Rematch_Manager)
  : Rematch_Manager :=
  match calls with
  | [] => self
  | c :: rest => run_calls rest (step Variant_of int_max_str_digits c self)
  end.

(** The key of the opponent, when the call is an [offer_rematch] that
    returns True. *)
Definition offered_key (c : call) (self : Rematch_Manager) : option string :=
  match c with
  | Offer_rematch game_info =>
      match fst (offer_rematch Variant_of int_max_str_digits self game_info) with
      | Return true => option_map Py.lower (_get_opponent_name self game_info)
      | _ => None
      end
  | _ => None
  end.

(** How many calls of a list are offers to [key] that return True. *)
Fixpoint offers_to (key : string) (calls : list call) (self : Rematch_Manager)
  : Z :=
  match calls with
  | [] => 0
  | c :: rest =>
      (match offered_key c self with
       | Some k => if String.eqb k key then 1 else 0
       | None => 0
       end)
      + offers_to key rest (step Variant_of int_max_str_digits c self)
  end.

End Calls.

(** ** More of the example session *)

(** The game against Alice, a titled bot rated 2100, with the bot rated
    2000. *)
Definition game_alice_players : Game_Information_players :=
  {| game := game_alice;
     white_title := Some "BOT";
     white_rating := Some 2000;
     black_title := Some "BOT";
     black_rating := Some 2100 |}.

(** A finished game of the bot, as black, against [Alice]. *)
Definition game_as_black : Game_Information :=
  {| white_name := "Alice";
     black_name := "NS2BOT";
     rated := false;
     tc_str := "5+3";
     variant := "standard" |}.

(** A time control without [+]. *)
Definition game_bad : Game_Information := game_vs "Alice" "bad" "standard".

(** A game whose black player has no name. *)
Definition game_nameless : Game_Information := game_vs "" "3+2" "standard".

(** The same opponent as in [game_alice], written in capitals. *)
Definition game_ALICE : Game_Information := game_vs "ALICE" "5+3" "standard".

(** A session: two offers to Alice around her refusal, then one to Bob. *)
Definition session : list call :=
  [Offer_rematch game_alice; On_rematch_declined "Alice";
   On_game_finished "Alice"; Offer_rematch game_alice;
   Offer_rematch game_bad; Offer_rematch game_bob; Clear_pending_rematch].

(** ** Properties of the exception monad *)

Lemma bind_Return {A B} (r : result A) (k : A -> result B) (b : B) :
  r ≫= k = Return b <-> exists a, r = Return a /\ k a = Return b.
Proof.
  destruct r as [a|e]; split.
  - intros H. exists a. split; [reflexivity | exact H].
  - intros (a' & [= <-] & H). exact H.
  - discriminate.
  - intros (a' & [=] & _).
Qed.

Lemma bind_Raise {A B} (r : result A) (k : A -> result B) (e : exception) :
  r ≫= k = Raise e <->
  r = Raise e \/ exists a, r = Return a /\ k a = Raise e.
Proof.
  destruct r as [a|e']; split.
  - intros H. right. exists a. split; [reflexivity | exact H].
  - intros [[=] | (a' & [= <-] & H)]. exact H.
  - intros H. left. cbv in H. congruence.
  - intros [H | (a' & [=] & _)]. cbv. congruence.
Qed.

Lemma unpack2_Return {A} (l : list A) (a b : A) :
  Py.unpack2 l = Return (a, b) <-> l = [a; b].
Proof.
  destruct l as [|x [|y [|z l]]]; simpl; split; intros H;
    try discriminate; congruence.
Qed.

Lemma unpack2_Raise {A} (l : list A) (e : exception) :
  Py.unpack2 l = Raise e -> e = ValueError.
Proof. destruct l as [|x [|y [|z l]]]; simpl; intros [=]; auto. Qed.

Lemma float_of_str_Raise (s : string) (e : exception) :
  Py.float_of_str s = Raise e -> e = ValueError.
Proof.
  unfold Py.float_of_str, Py.float_of_literal.
  repeat match goal with
         | |- context [match ?x with _ => _ end] => destruct x
         end; intros [=]; auto.
Qed.

Lemma int_of_str_Raise (n : nat) (s : string) (e : exception) :
  Py.int_of_str n s = Raise e -> e = ValueError.
Proof.
  unfold Py.int_of_str.
  repeat match goal with
         | |- context [match ?x with _ => _ end] => destruct x
         end; intros [=]; auto.
Qed.

Lemma int_of_float_Raise (x : Py.float) (e : exception) :
  Py.int_of_float x = Raise e ->
  e = ValueError \/ (e = OverflowError /\ exists s, x = S754_infinity s).
Proof.
  destruct x as [s|s| |s m x]; simpl; intros [=]; subst; eauto.
Qed.

(** ** Properties of the built-ins *)

Lemma lower_truthy (s : string) : truthy s = true -> truthy (Py.lower s) = true.
Proof. destruct s; simpl; [discriminate | reflexivity]. Qed.

Lemma truthy_opt_Some (o : option string) :
  truthy_opt o = true -> exists s, o = Some s /\ truthy s = true.
Proof. destruct o as [s|]; simpl; [eauto | discriminate]. Qed.

(** ** Properties of challenge construction *)

Section Construction.

Context {Variant : Type}.
Variable Variant_of : string -> option Variant.
Variable int_max_str_digits : nat.

Local Abbreviation create_try :=
  (create_rematch_challenge_try Variant_of int_max_str_digits).
Local Abbreviation create :=
  (_create_rematch_challenge Variant_of int_max_str_digits).

(** When the [try] block runs to its end: every stage returned, and the
    request is assembled from the stages' values. *)
Lemma create_try_Return self game_info opponent_name request :
  create_try self game_info opponent_name = Return request <->
  exists a b minutes t n v,
    Py.split "+" (tc_str game_info) = [a; b] /\
    Py.float_of_str a = Return minutes /\
    Py.int_of_float (Py.fmul minutes (Py.float_of_Z 60)) = Return t /\
    Py.int_of_str int_max_str_digits b = Return n /\
    Variant_of (variant game_info) = Some v /\
    request = {| opponent_username := opponent_name;
                 initial_time := t;
                 increment := n;
                 challenge_rated := rated game_info;
                 color := if plays_white self game_info then BLACK else WHITE;
                 challenge_variant := v;
                 timeout := timeout_seconds (rematch (config self)) |}.
Proof.
  unfold create_rematch_challenge_try. split.
  - intros H.
    apply bind_Return in H as ([a b] & Hs%unpack2_Return & H).
    apply bind_Return in H as (minutes & Hf & H).
    apply bind_Return in H as (t & Ht & H).
    apply bind_Return in H as (n & Hn & H).
    apply bind_Return in H as (v & Hv & [= <-]).
    exists a, b, minutes, t, n, v.
    destruct (Variant_of (variant game_info)); [|discriminate].
    injection Hv as ->. repeat split; assumption.
  - intros (a & b & minutes & t & n & v & Hs & Hf & Ht & Hn & Hv & ->).
    apply bind_Return. exists (a, b). split; [by apply unpack2_Return|].
    apply bind_Return. exists minutes. split; [assumption|].
    apply bind_Return. exists t. split; [assumption|].
    apply bind_Return. exists n. split; [assumption|].
    apply bind_Return. exists v. split; [by rewrite Hv|reflexivity].
Qed.

(** The opponent's name only fills the request's first field. *)
Lemma create_try_opponent self game_info o1 o2 request :
  create_try self game_info o1 = Return request ->
  exists request',
    create_try self game_info o2 = Return request' /\
    color request' = color request.
Proof.
  rewrite create_try_Return.
  intros (a & b & minutes & t & n & v & Hs & Hf & Ht & Hn & Hv & ->).
  eexists. split.
  - apply create_try_Return. exists a, b, minutes, t, n, v.
    repeat split; assumption.
  - reflexivity.
Qed.

(** Construction reads [config] and [username] of the manager only. *)
Lemma create_try_ext self self' game_info opponent_name :
  config self' = config self -> username self' = username self ->
  create_try self' game_info opponent_name
  = create_try self game_info opponent_name.
Proof.
  intros Hc Hu. unfold create_rematch_challenge_try, plays_white.
  rewrite Hc, Hu. reflexivity.
Qed.

Lemma create_Some self game_info opponent_name request :
  create self game_info opponent_name = Return (Some request) <->
  create_try self game_info opponent_name = Return request.
Proof.
  unfold _create_rematch_challenge.
  destruct (create_try _ _ _) as [r|[]]; split; intros H;
    try discriminate; congruence.
Qed.

(** The only exception that leaves [_create_rematch_challenge] is the
    OverflowError of [int] on an infinite number of seconds. *)
Lemma create_Raise self game_info opponent_name e :
  create self game_info opponent_name = Raise e ->
  e = OverflowError /\
  exists a b minutes s,
    Py.split "+" (tc_str game_info) = [a; b] /\
    Py.float_of_str a = Return minutes /\
    Py.fmul minutes (Py.float_of_Z 60) = S754_infinity s.
Proof.
  unfold _create_rematch_challenge.
  destruct (create_try _ _ _) as [r|e'] eqn:H; [discriminate|].
  intros He. assert (e' = e) as -> by (destruct e'; congruence).
  assert (e = OverflowError) as -> by (destruct e; congruence).
  split; [reflexivity|]. clear He.
  unfold create_rematch_challenge_try in H.
  apply bind_Raise in H as [H%unpack2_Raise | ([a b] & Hs%unpack2_Return & H)];
    [discriminate|].
  apply bind_Raise in H as [H%float_of_str_Raise | (minutes & Hf & H)];
    [discriminate|].
  apply bind_Raise in H as [H | (t & Ht & H)].
  - apply int_of_float_Raise in H as [[=] | (_ & s & Hs')].
    exists a, b, minutes, s. auto.
  - apply bind_Raise in H as [H%int_of_str_Raise | (n & Hn & H)];
      [discriminate|].
    apply bind_Raise in H as [H | (v & Hv & [=])].
    destruct (Variant_of _); discriminate.
Qed.

(** Unless the number of seconds is infinite, construction returns: a
    request, or None for what the [except] clause catches. *)
Lemma create_returns self game_info opponent_name :
  (forall a b minutes s,
      Py.split "+" (tc_str game_info) = [a; b] ->
      Py.float_of_str a = Return minutes ->
      Py.fmul minutes (Py.float_of_Z 60) <> S754_infinity s) ->
  exists o, create self game_info opponent_name = Return o.
Proof.
  intros Hfinite.
  destruct (create self game_info opponent_name) as [o|e] eqn:H; [eauto|].
  apply create_Raise in H as (_ & a & b & minutes & s & Hs & Hf & Hinf).
  destruct (Hfinite a b minutes s Hs Hf Hinf).
Qed.

(** A time control without exactly one [+], or with a part that [float]
    or [int] rejects, and an unknown variant with a finite number of
    seconds, all give None. *)
Lemma create_malformed_None self game_info opponent_name :
  (forall a b, Py.split "+" (tc_str game_info) <> [a; b]) \/
  (exists a b e,
      Py.split "+" (tc_str game_info) = [a; b] /\
      (Py.float_of_str a = Raise e \/
       exists minutes t,
         Py.float_of_str a = Return minutes /\
         Py.int_of_float (Py.fmul minutes (Py.float_of_Z 60)) = Return t /\
         (Py.int_of_str int_max_str_digits b = Raise e \/
          Variant_of (variant game_info) = None))) ->
  create self game_info opponent_name = Return None.
Proof.
  intros H.
  destruct (create self game_info opponent_name) as [[r|]|e'] eqn:Hc;
    [exfalso | reflexivity | exfalso].
  - apply create_Some, create_try_Return in Hc.
    destruct Hc as (a & b & minutes & t & n & v & Hs & Hf & Ht & Hn & Hv & _).
    destruct H as [H | (a' & b' & e & Hs' & H)]; [by apply (H a b)|].
    rewrite Hs in Hs'. injection Hs' as <- <-.
    destruct H as [H | (m' & t' & _ & _ & [H | H])]; congruence.
  - apply create_Raise in Hc as (_ & a & b & minutes & s & Hs & Hf & Hinf).
    destruct H as [H | (a' & b' & e & Hs' & H)]; [by apply (H a b)|].
    rewrite Hs in Hs'. injection Hs' as <- <-.
    destruct H as [H | (m' & t' & Hf' & Ht' & _)]; [congruence|].
    assert (m' = minutes) as -> by congruence.
    rewrite Hinf in Ht'. discriminate.
Qed.

End Construction.

(** ** Properties of the methods *)

Section Methods.

Context {Variant : Type}.
Variable Variant_of : string -> option Variant.
Variable int_max_str_digits : nat.

Local Abbreviation create_try :=
  (create_rematch_challenge_try Variant_of int_max_str_digits).
Local Abbreviation create :=
  (_create_rematch_challenge Variant_of int_max_str_digits).
Local Abbreviation offer := (offer_rematch Variant_of int_max_str_digits).
Local Abbreviation get_request :=
  (get_rematch_challenge_request Variant_of int_max_str_digits).
Local Abbreviation reach := (reachable Variant_of int_max_str_digits).
Local Abbreviation backed := (pending_backed Variant_of int_max_str_digits).

(** The opponent is resolved from [username] only. *)
Lemma get_opponent_name_ext self self' game_info :
  username self' = username self ->
  _get_opponent_name self' game_info = _get_opponent_name self game_info.
Proof.
  intros Hu. unfold _get_opponent_name, plays_white, plays_black.
  rewrite Hu. reflexivity.
Qed.

Lemma get_opponent_name_Some self game_info opponent_name :
  _get_opponent_name self game_info = Some opponent_name ->
  plays_white self game_info = true /\ opponent_name = black_name game_info \/
  plays_white self game_info = false /\ plays_black self game_info = true /\
  opponent_name = white_name game_info.
Proof.
  unfold _get_opponent_name.
  destruct (plays_white self game_info), (plays_black self game_info);
    intros [=]; auto.
Qed.

(** A successful offer: the opponent was resolved, the challenge was
    built, and the three attributes were assigned. *)
Lemma offer_rematch_true self game_info self' :
  offer self game_info = (Return true, self') ->
  exists opponent_name request,
    _get_opponent_name self game_info = Some opponent_name /\
    truthy opponent_name = true /\
    create_try self game_info opponent_name = Return request /\
    config self' = config self /\
    username self' = username self /\
    rematch_counts self' =
      <[Py.lower opponent_name :=
          get_count (rematch_counts self) (Py.lower opponent_name) + 1]>
        (rematch_counts self) /\
    last_game_info self' = Some game_info /\
    pending_rematch self' = Some (Py.lower opponent_name).
Proof.
  unfold offer_rematch.
  destruct (_get_opponent_name self game_info) as [opp|]; [|discriminate].
  destruct (truthy opp) eqn:Ht; simpl; [|discriminate].
  destruct (create self game_info opp) as [[request|]|e] eqn:Hc;
    try discriminate.
  intros [= <-]. exists opp, request. apply create_Some in Hc.
  repeat split; auto.
Qed.

Lemma offer_rematch_success self game_info opponent_name request :
  _get_opponent_name self game_info = Some opponent_name ->
  truthy opponent_name = true ->
  create_try self game_info opponent_name = Return request ->
  offer self game_info =
    (Return true,
     {| config := config self;
        username := username self;
        rematch_counts :=
          <[Py.lower opponent_name :=
              get_count (rematch_counts self) (Py.lower opponent_name) + 1]>
            (rematch_counts self);
        last_game_info := Some game_info;
        pending_rematch := Some (Py.lower opponent_name);
        rematch_offered := false |}).
Proof.
  intros Ho Ht Hc. apply create_Some in Hc. unfold offer_rematch.
  rewrite Ho, Ht, Hc. reflexivity.
Qed.

(** An offer that does not return true leaves the object as it was. *)
Lemma offer_rematch_unchanged self game_info :
  fst (offer self game_info) <> Return true ->
  snd (offer self game_info) = self.
Proof.
  unfold offer_rematch.
  destruct (_get_opponent_name self game_info) as [opp|]; [|reflexivity].
  destruct (truthy opp); simpl; [|reflexivity].
  destruct (create self game_info opp) as [[request|]|e];
    simpl; congruence.
Qed.

Lemma offer_rematch_cases self game_info :
  (exists self', offer self game_info = (Return true, self')) \/
  snd (offer self game_info) = self.
Proof.
  destruct (offer self game_info) as [[[|]|e] self'] eqn:H.
  - left. eauto.
  - right. rewrite <- H. apply offer_rematch_unchanged. rewrite H. discriminate.
  - right. rewrite <- H. apply offer_rematch_unchanged. rewrite H. discriminate.
Qed.

(** No call assigns [config] or [username]. *)
Lemma step_config c self :
  config (step Variant_of int_max_str_digits c self) = config self.
Proof.
  destruct c; try reflexivity. simpl.
  destruct (offer_rematch_cases self game_info) as [[self' H] | H].
  - rewrite H. apply offer_rematch_true in H.
    destruct H as (o & r & _ & _ & _ & Hc & _). exact Hc.
  - rewrite H. reflexivity.
Qed.

Lemma step_username c self :
  username (step Variant_of int_max_str_digits c self) = username self.
Proof.
  destruct c; try reflexivity. simpl.
  destruct (offer_rematch_cases self game_info) as [[self' H] | H].
  - rewrite H. apply offer_rematch_true in H.
    destruct H as (o & r & _ & _ & _ & _ & Hu & _). exact Hu.
  - rewrite H. reflexivity.
Qed.

Lemma pending_backed_ext self self' :
  config self' = config self -> username self' = username self ->
  pending_rematch self' = pending_rematch self ->
  last_game_info self' = last_game_info self ->
  backed self -> backed self'.
Proof.
  intros Hc Hu Hp Hl Hinv key Hkey. rewrite Hp in Hkey.
  destruct (Hinv key Hkey) as (Ht & gi & r & Hgi & Hw & Hr).
  split; [exact Ht|]. exists gi, r. rewrite Hl.
  unfold plays_white, plays_black in *. rewrite Hu.
  rewrite (create_try_ext _ _ self self') by assumption. auto.
Qed.

Lemma reachable_pending_backed self : reach self -> backed self.
Proof.
  induction 1 as [cfg name | c self Hreach IH].
  - intros key [=].
  - destruct c; simpl.
    + exact IH.
    + destruct (offer_rematch_cases self game_info) as [[self' H] | H];
        rewrite H; [|exact IH]. simpl.
      apply offer_rematch_true in H.
      destruct H as (opp & r & Ho & Ht & Hr & Hc & Hu & _ & Hl & Hp).
      intros key Hkey. rewrite Hp in Hkey. injection Hkey as <-.
      split; [by apply lower_truthy|].
      destruct (create_try_opponent _ _ _ _ _ (Py.lower opp) _ Hr)
        as (r' & Hr' & _).
      exists game_info, r'. split; [exact Hl|].
      unfold plays_white, plays_black. rewrite Hu.
      rewrite (create_try_ext _ _ self) by assumption. split; [|exact Hr'].
      apply get_opponent_name_Some in Ho.
      unfold plays_white, plays_black in Ho.
      destruct Ho as [[-> _] | (_ & -> & _)]; [reflexivity|].
      apply orb_true_r.
    + intros key [=].
    + intros key [=].
    + revert IH. by apply pending_backed_ext.
    + intros key [=].
    + exact IH.
Qed.

End Methods.

(** [int(x)] truncates toward zero: for a finite [x = ± m * 2^e] it is
    the quotient, rounded toward zero, of the numerator by the
    denominator of [x]. *)
Lemma int_of_float_truncates (s : bool) (m : positive) (e t : Z) :
  Py.int_of_float (S754_finite s m e) = Return t ->
  t = Z.quot (cond_Zopp s (Zpos m * 2 ^ Z.max e 0)) (2 ^ Z.max (- e) 0).
Proof.
  simpl. intros [= <-]. destruct (Z.leb_spec 0 e) as [He|He].
  - rewrite (Z.max_l e 0), (Z.max_r (- e) 0) by lia.
    rewrite Z.pow_0_r, Z.quot_1_r. reflexivity.
  - rewrite (Z.max_r e 0), (Z.max_l (- e) 0) by lia.
    rewrite Z.pow_0_r, Z.mul_1_r.
    assert (0 < 2 ^ (- e)) by (apply Z.pow_pos_nonneg; lia).
    destruct s; simpl.
    + change (Z.neg m) with (- Z.pos m). rewrite Z.quot_opp_l by lia.
      rewrite Z.quot_div_nonneg by lia. reflexivity.
    + rewrite Z.quot_div_nonneg by lia. reflexivity.
Qed.

(** ** The claims *)

Section Claims.

Context {Variant : Type}.
Variable Variant_of : string -> option Variant.
Variable int_max_str_digits : nat.

Local Abbreviation create_try :=
  (create_rematch_challenge_try Variant_of int_max_str_digits).
Local Abbreviation create :=
  (_create_rematch_challenge Variant_of int_max_str_digits).
Local Abbreviation offer := (offer_rematch Variant_of int_max_str_digits).
Local Abbreviation get_request :=
  (get_rematch_challenge_request Variant_of int_max_str_digits).
Local Abbreviation reach := (reachable Variant_of int_max_str_digits).
Local Abbreviation run := (step Variant_of int_max_str_digits).

(** C1, amended.  After a successful offer the manager is pending for
    that opponent, and [should_offer_rematch] on the same snapshot
    returns false: the check of a pending offer is there.
    [offer_rematch] has no such check: called again on the same snapshot
    with no accept, decline or clear in between, it returns true again,
    the manager stays pending for the same opponent, and that opponent's
    entry of [rematch_counts] grows by one. *)
Theorem C1_offer_twice self game_info self1 :
  offer self game_info = (Return true, self1) ->
  exists key self2,
    pending_rematch self1 = Some key /\
    (forall game_result winner,
        should_offer_rematch self1 game_info game_result winner = false) /\
    offer self1 game_info = (Return true, self2) /\
    pending_rematch self2 = Some key /\
    get_count (rematch_counts self2) key
    = get_count (rematch_counts self1) key + 1.
Proof.
  intros H. apply offer_rematch_true in H.
  destruct H as (opp & r & Ho & Ht & Hr & Hc & Hu & Hcounts & Hl & Hp).
  assert (Ho1 : _get_opponent_name self1 game_info = Some opp)
    by (rewrite (get_opponent_name_ext self self1); assumption).
  assert (Hr1 : create_try self1 game_info opp = Return r)
    by (rewrite (create_try_ext _ _ self self1); assumption).
  exists (Py.lower opp). eexists. split; [exact Hp|]. split; [|split].
  - intros game_result winner. unfold should_offer_rematch.
    rewrite Ho1. simpl. rewrite Ht, Hp. simpl.
    rewrite String.eqb_refl. reflexivity.
  - apply (offer_rematch_success _ _ _ _ _ _ Ho1 Ht Hr1).
  - simpl. split; [reflexivity|].
    unfold get_count at 1. rewrite lookup_insert_eq. reflexivity.
Qed.

(** C2, amended.  For every opponent name and every state,
    [on_rematch_accepted] and [on_rematch_declined] both set
    [pending_rematch] to None, after which no pending request is
    returned, and leave [rematch_counts] as it was; [last_game_info] is
    not assigned: it keeps its value. *)
Theorem C2_accepted_declined opponent_name self :
  let accepted := on_rematch_accepted self opponent_name in
  let declined := on_rematch_declined self opponent_name in
  (pending_rematch accepted = None /\
   get_request accepted = Return None /\
   last_game_info accepted = last_game_info self /\
   rematch_counts accepted = rematch_counts self) /\
  (pending_rematch declined = None /\
   get_request declined = Return None /\
   last_game_info declined = last_game_info self /\
   rematch_counts declined = rematch_counts self).
Proof. simpl. repeat split. Qed.

(** C3, amended.  In every state reached from [__init__] by the
    manager's methods, [last_game_info] is set whenever
    [pending_rematch] is set; both are None after [__init__]. *)
Theorem C3_pending_has_snapshot self :
  reach self ->
  (pending_rematch self <> None -> last_game_info self <> None) /\
  (forall cfg name,
      pending_rematch (__init__ cfg name) = None /\
      last_game_info (__init__ cfg name) = None).
Proof.
  intros Hreach. split; [|intros; split; reflexivity].
  destruct (pending_rematch self) as [key|] eqn:Hkey; [|congruence].
  intros _.
  destruct (reachable_pending_backed _ _ self Hreach key Hkey)
    as (_ & gi & r & -> & _).
  discriminate.
Qed.

(** C4, amended.  For a time control [a+b] whose parts [float] and [int]
    accept, the request's initial time is [float(a) * 60] truncated
    toward zero by [int], not rounded, and its increment is [int(b)].
    [5+3] gives 300 and 3; [3.5+2] gives 210 and 2. *)
Theorem C4_time_control self opponent_name :
  (forall game_info a b minutes t n v,
      Py.split "+" (tc_str game_info) = [a; b] ->
      Py.float_of_str a = Return minutes ->
      Py.int_of_float (Py.fmul minutes (Py.float_of_Z 60)) = Return t ->
      Py.int_of_str int_max_str_digits b = Return n ->
      Variant_of (variant game_info) = Some v ->
      exists request,
        create self game_info opponent_name = Return (Some request) /\
        initial_time request = t /\ increment request = n) /\
  (forall game_info v,
      tc_str game_info = "5+3" ->
      Variant_of (variant game_info) = Some v ->
      exists request,
        create self game_info opponent_name = Return (Some request) /\
        initial_time request = 300 /\ increment request = 3) /\
  (forall game_info v,
      tc_str game_info = "3.5+2" ->
      Variant_of (variant game_info) = Some v ->
      exists request,
        create self game_info opponent_name = Return (Some request) /\
        initial_time request = 210 /\ increment request = 2).
Proof.
  assert (General : forall game_info a b minutes t n v,
      Py.split "+" (tc_str game_info) = [a; b] ->
      Py.float_of_str a = Return minutes ->
      Py.int_of_float (Py.fmul minutes (Py.float_of_Z 60)) = Return t ->
      Py.int_of_str int_max_str_digits b = Return n ->
      Variant_of (variant game_info) = Some v ->
      exists request,
        create self game_info opponent_name = Return (Some request) /\
        initial_time request = t /\ increment request = n).
  { intros game_info a b minutes t n v Hs Hf Ht Hn Hv.
    eexists. split.
    - apply create_Some, create_try_Return.
      exists a, b, minutes, t, n, v. repeat split; eassumption.
    - split; reflexivity. }
  split; [exact General|]. split.
  - intros game_info v Htc Hv.
    apply (General game_info "5" "3" (Py.float_of_Z 5) 300 3 v); auto.
    + rewrite Htc. reflexivity.
    + unfold Py.int_of_str. simpl.
      destruct int_max_str_digits as [|[|k]]; reflexivity.
  - intros game_info v Htc Hv.
    apply (General game_info "3.5" "2"
             (S754_finite false 7881299347898368 (-51)) 210 2 v); auto.
    + rewrite Htc. reflexivity.
    + unfold Py.int_of_str. simpl.
      destruct int_max_str_digits as [|[|k]]; reflexivity.
Qed.

(** C5.  When neither player name of the snapshot equals the bot's
    username, case aside, [should_offer_rematch] and [offer_rematch]
    both return false, and the manager is the same object after either
    call: [pending_rematch], [last_game_info] and [rematch_counts] are
    not assigned. *)
Theorem C5_unresolved_opponent self game_info :
  Py.lower (white_name game_info) <> Py.lower (username self) ->
  Py.lower (black_name game_info) <> Py.lower (username self) ->
  (forall game_result winner,
      should_offer_rematch self game_info game_result winner = false /\
      run (Should_offer_rematch game_info game_result winner) self = self) /\
  offer self game_info = (Return false, self) /\
  run (Offer_rematch game_info) self = self.
Proof.
  intros Hw Hb.
  assert (Ho : _get_opponent_name self game_info = None).
  { unfold _get_opponent_name, plays_white, plays_black.
    apply String.eqb_neq in Hw, Hb. rewrite Hw, Hb. reflexivity. }
  assert (Hoffer : offer self game_info = (Return false, self))
    by (unfold offer_rematch; rewrite Ho; reflexivity).
  split; [|split].
  - intros game_result winner. split; [|reflexivity].
    unfold should_offer_rematch. rewrite Ho. reflexivity.
  - exact Hoffer.
  - simpl. rewrite Hoffer. reflexivity.
Qed.

(** C7.  In every state reached from [__init__],
    [get_rematch_challenge_request] returns None exactly when
    [pending_rematch] or [last_game_info] is None; otherwise it returns
    a request whose color is the opposite of the bot's in the stored
    snapshot: BLACK when the bot's username is, case aside, the white
    player's name, and WHITE when it is not, in which case it is, case
    aside, the black player's name. *)
Theorem C7_pending_request self :
  reach self ->
  (get_request self = Return None <->
   pending_rematch self = None \/ last_game_info self = None) /\
  (forall key game_info,
      pending_rematch self = Some key ->
      last_game_info self = Some game_info ->
      exists request,
        get_request self = Return (Some request) /\
        (Py.lower (white_name game_info) = Py.lower (username self) ->
         color request = BLACK) /\
        (Py.lower (white_name game_info) <> Py.lower (username self) ->
         Py.lower (black_name game_info) = Py.lower (username self) /\
         color request = WHITE)).
Proof.
  intros Hreach.
  assert (Hinv := reachable_pending_backed _ _ self Hreach).
  assert (Some_case : forall key game_info,
      pending_rematch self = Some key ->
      last_game_info self = Some game_info ->
      exists request,
        get_request self = Return (Some request) /\
        (Py.lower (white_name game_info) = Py.lower (username self) ->
         color request = BLACK) /\
        (Py.lower (white_name game_info) <> Py.lower (username self) ->
         Py.lower (black_name game_info) = Py.lower (username self) /\
         color request = WHITE)).
  { intros key game_info Hkey Hgi.
    destruct (Hinv key Hkey) as (Ht & gi & r & Hgi' & Hplays & Hr).
    assert (gi = game_info) as -> by congruence.
    exists r. split.
    - unfold get_rematch_challenge_request. rewrite Hkey, Hgi, Ht.
      by apply create_Some.
    - apply create_try_Return in Hr.
      destruct Hr as (a & b & minutes & t & n & v & _ & _ & _ & _ & _ & ->).
      cbn [color]. unfold plays_white, plays_black in *.
      destruct (String.eqb_spec (Py.lower (white_name game_info))
                                (Py.lower (username self))) as [Hw|Hw].
      + split; [reflexivity | congruence].
      + split; [congruence|]. intros _. split; [|reflexivity].
        simpl in Hplays. by apply String.eqb_eq. }
  split; [|exact Some_case]. split.
  - intros Hnone.
    destruct (pending_rematch self) as [key|] eqn:Hkey; [|by left].
    destruct (last_game_info self) as [gi|] eqn:Hgi; [|by right].
    destruct (Some_case key gi eq_refl eq_refl) as (r & Hr & _).
    congruence.
  - unfold get_rematch_challenge_request.
    intros [-> | ->]; [reflexivity|].
    destruct (pending_rematch self); reflexivity.
Qed.

(** C8, amended.  With the bot as white against [Alice] in a rated game
    with time control [3+2] and variant [standard], and no offer to her
    counted yet: [offer_rematch] returns true; then
    [get_rematch_challenge_request] returns a request whose opponent is
    the lower-cased key [alice], with color BLACK, initial time 180,
    increment 2 and rated true; then [on_rematch_declined] clears the
    pending opponent, so that no request is returned; and a second
    [offer_rematch] on the same snapshot returns true and brings the
    count of [alice] to 2. *)
Theorem C8_end_to_end self game_info v :
  Py.lower (white_name game_info) = Py.lower (username self) ->
  black_name game_info = "Alice" ->
  rated game_info = true ->
  tc_str game_info = "3+2" ->
  variant game_info = "standard" ->
  Variant_of "standard" = Some v ->
  rematch_counts self !! "alice" = None ->
  exists self1 self2,
    offer self game_info = (Return true, self1) /\
    get_request self1 =
      Return (Some {| opponent_username := "alice";
                      initial_time := 180;
                      increment := 2;
                      challenge_rated := true;
                      color := BLACK;
                      challenge_variant := v;
                      timeout := timeout_seconds (rematch (config self)) |}) /\
    pending_rematch (on_rematch_declined self1 "Alice") = None /\
    get_request (on_rematch_declined self1 "Alice") = Return None /\
    offer (on_rematch_declined self1 "Alice") game_info = (Return true, self2) /\
    rematch_counts self2 !! "alice" = Some 2.
Proof.
  intros Hw Hb Hrated Htc Hvar Hv Hcount.
  assert (Hpw : forall s, username s = username self ->
                          plays_white s game_info = true).
  { intros s Hs. unfold plays_white. rewrite Hs, Hw. apply String.eqb_refl. }
  assert (Hopp : forall s, username s = username self ->
                           _get_opponent_name s game_info = Some "Alice").
  { intros s Hs. unfold _get_opponent_name. rewrite (Hpw s Hs), Hb.
    reflexivity. }
  assert (Hcreate : forall s opp,
      username s = username self -> config s = config self ->
      create_try s game_info opp =
        Return {| opponent_username := opp;
                  initial_time := 180;
                  increment := 2;
                  challenge_rated := true;
                  color := BLACK;
                  challenge_variant := v;
                  timeout := timeout_seconds (rematch (config self)) |}).
  { intros s opp Hs Hc. apply create_try_Return.
    exists "3", "2", (Py.float_of_Z 3), 180, 2, v.
    rewrite Htc, Hvar, Hrated, (Hpw s Hs), Hc. repeat split; auto.
    unfold Py.int_of_str. simpl.
    destruct int_max_str_digits as [|[|k]]; reflexivity. }
  eexists. eexists. split; [|split; [|split; [|split; [|split]]]].
  - eapply (offer_rematch_success _ _ self game_info "Alice");
      [by apply Hopp | reflexivity | by apply Hcreate].
  - unfold get_rematch_challenge_request. simpl.
    apply create_Some. by apply Hcreate.
  - reflexivity.
  - reflexivity.
  - eapply (offer_rematch_success _ _ _ game_info "Alice");
      [by apply Hopp | reflexivity | by apply Hcreate].
  - change (Py.lower "Alice") with "alice". simpl.
    rewrite lookup_insert_eq. f_equal.
    unfold get_count. rewrite lookup_insert_eq, Hcount. reflexivity.
Qed.

(** C9.  For every opponent name and every state, [on_game_finished]
    assigns [rematch_offered] only: [pending_rematch], [last_game_info]
    and [rematch_counts] keep their values. *)
Theorem C9_game_finished_frame opponent_name self :
  let finished := on_game_finished self opponent_name in
  rematch_offered finished = false /\
  pending_rematch finished = pending_rematch self /\
  last_game_info finished = last_game_info self /\
  rematch_counts finished = rematch_counts self /\
  config finished = config self /\
  username finished = username self.
Proof. simpl. repeat split. Qed.

(** C10.  The manager has one pending slot.  When an offer for an
    opponent A is pending and [offer_rematch] succeeds for a snapshot
    against B, the slot is overwritten: [pending_rematch] becomes B's
    key and [last_game_info] B's snapshot, so that A's key is no longer
    pending if it differs from B's.  The pending offer plays no part in
    the outcome: the call returns what it returns after
    [clear_pending_rematch]. *)
Theorem C10_offer_overwrites_pending self game_info key_a self' :
  pending_rematch self = Some key_a ->
  offer self game_info = (Return true, self') ->
  exists opponent_b,
    _get_opponent_name self game_info = Some opponent_b /\
    pending_rematch self' = Some (Py.lower opponent_b) /\
    last_game_info self' = Some game_info /\
    (key_a <> Py.lower opponent_b -> pending_rematch self' <> Some key_a) /\
    fst (offer (clear_pending_rematch self) game_info) = Return true.
Proof.
  intros Ha H. apply offer_rematch_true in H.
  destruct H as (opp & r & Ho & Ht & Hr & Hc & Hu & _ & Hl & Hp).
  exists opp. repeat split; try assumption.
  - rewrite Hp. congruence.
  - rewrite (offer_rematch_success _ _ _ game_info opp r);
      [reflexivity | | assumption |].
    + by rewrite (get_opponent_name_ext self).
    + by rewrite (create_try_ext _ _ self).
Qed.

End Claims.

(** ** The claims on the example session *)

Lemma reachable_after_offers (n : nat) (game_info : Game_Information) :
  reachable Std_Variant_of default_max_str_digits (after_offers n game_info).
Proof.
  induction n as [|n IH]; simpl.
  - apply reachable_init.
  - apply (reachable_step _ _ (Offer_rematch game_info) _ IH).
Qed.

(** C1 as stated fails: the second of two offers in a row to Alice
    returns true, not false, and her count goes from 1 to 2. *)
Lemma C1_second_offer_counterexample :
  offer_rematch Std_Variant_of default_max_str_digits bot game_alice
  = (Return true, after_offers 1 game_alice) /\
  fst (offer_rematch Std_Variant_of default_max_str_digits
         (after_offers 1 game_alice) game_alice) <> Return false /\
  rematch_counts (after_offers 1 game_alice) !! "alice" = Some 1 /\
  rematch_counts
    (snd (offer_rematch Std_Variant_of default_max_str_digits
            (after_offers 1 game_alice) game_alice)) !! "alice" = Some 2.
Proof. vm_compute. repeat split. discriminate. Qed.

Lemma C1_offer_twice_witness :
  offer_rematch Std_Variant_of default_max_str_digits bot game_alice
  = (Return true, after_offers 1 game_alice) /\
  exists key self2,
    pending_rematch (after_offers 1 game_alice) = Some key /\
    (forall game_result winner,
        should_offer_rematch (after_offers 1 game_alice) game_alice
          game_result winner = false) /\
    offer_rematch Std_Variant_of default_max_str_digits
      (after_offers 1 game_alice) game_alice = (Return true, self2) /\
    pending_rematch self2 = Some key /\
    get_count (rematch_counts self2) key
    = get_count (rematch_counts (after_offers 1 game_alice)) key + 1.
Proof.
  split; [vm_compute; reflexivity|].
  apply (C1_offer_twice Std_Variant_of default_max_str_digits bot game_alice).
  vm_compute. reflexivity.
Defined.

(** C2 as stated fails: after an offer to Alice, neither
    [on_rematch_accepted] nor [on_rematch_declined] sets
    [last_game_info] to None. *)
Lemma C2_last_game_info_counterexample :
  last_game_info (on_rematch_accepted (after_offers 1 game_alice) "Alice")
  = Some game_alice /\
  last_game_info (on_rematch_declined (after_offers 1 game_alice) "Alice")
  = Some game_alice /\
  Some game_alice <> None.
Proof. vm_compute. repeat split. discriminate. Qed.

(** C3 as stated fails: the state after an offer to Alice and her
    acceptance is reachable, [last_game_info] is set in it and
    [pending_rematch] is not. *)
Lemma C3_iff_counterexample :
  reachable Std_Variant_of default_max_str_digits
    (on_rematch_accepted (after_offers 1 game_alice) "Alice") /\
  ~ (last_game_info (on_rematch_accepted (after_offers 1 game_alice) "Alice")
     <> None <->
     pending_rematch (on_rematch_accepted (after_offers 1 game_alice) "Alice")
     <> None).
Proof.
  split.
  - apply (reachable_step _ _ (On_rematch_accepted "Alice")).
    apply reachable_after_offers.
  - intros [H _]. apply H; vm_compute; [discriminate | reflexivity].
Qed.

Lemma C3_pending_has_snapshot_witness :
  reachable Std_Variant_of default_max_str_digits (after_offers 1 game_alice) /\
  pending_rematch (after_offers 1 game_alice) <> None /\
  last_game_info (after_offers 1 game_alice) <> None.
Proof.
  assert (R : reachable Std_Variant_of default_max_str_digits
                (after_offers 1 game_alice)).
  { apply (reachable_step _ _ (Offer_rematch game_alice) bot).
    apply reachable_init. }
  assert (P : pending_rematch (after_offers 1 game_alice) <> None)
    by (vm_compute; discriminate).
  split; [exact R|]. split; [exact P|].
  exact (proj1 (C3_pending_has_snapshot Std_Variant_of default_max_str_digits
                  (after_offers 1 game_alice) R) P).
Defined.

(** C4 as stated fails: for the time control [0.0625+0] the initial
    time is 3 seconds, while 0.0625 * 60 = 3.75 rounds to 4. *)
Lemma C4_round_counterexample :
  exists request,
    _create_rematch_challenge Std_Variant_of default_max_str_digits
      bot game_sixteenth "Alice" = Return (Some request) /\
    initial_time request = 3 /\
    (minutes ← Py.float_of_str "0.0625";
     Py.round_float (Py.fmul minutes (Py.float_of_Z 60))) = Return 4 /\
    3 <> 4.
Proof. eexists. vm_compute. repeat split. discriminate. Qed.

Lemma C4_time_control_witness :
  (exists request,
      _create_rematch_challenge Std_Variant_of default_max_str_digits
        bot game_sixteenth "Alice" = Return (Some request) /\
      initial_time request = 3 /\ increment request = 0) /\
  (exists request,
      _create_rematch_challenge Std_Variant_of default_max_str_digits
        bot game_bob "Bob" = Return (Some request) /\
      initial_time request = 300 /\ increment request = 3) /\
  (exists request,
      _create_rematch_challenge Std_Variant_of default_max_str_digits
        bot (game_vs "Bob" "3.5+2" "standard") "Bob"
      = Return (Some request) /\
      initial_time request = 210 /\ increment request = 2).
Proof.
  split; [|split].
  - apply (proj1 (C4_time_control Std_Variant_of default_max_str_digits
                    bot "Alice")
             game_sixteenth "0.0625" "0"
             (S754_finite false 4503599627370496 (-56)) 3 0 STANDARD);
      vm_compute; reflexivity.
  - apply (proj1 (proj2 (C4_time_control Std_Variant_of
                           default_max_str_digits bot "Bob"))
             game_bob STANDARD); reflexivity.
  - apply (proj2 (proj2 (C4_time_control Std_Variant_of
                           default_max_str_digits bot "Bob"))
             (game_vs "Bob" "3.5+2" "standard") STANDARD); reflexivity.
Defined.

Lemma C5_unresolved_opponent_witness :
  Py.lower (white_name game_of_others) <> Py.lower (username bot) /\
  Py.lower (black_name game_of_others) <> Py.lower (username bot) /\
  offer_rematch Std_Variant_of default_max_str_digits bot game_of_others
  = (Return false, bot).
Proof.
  assert (W : Py.lower (white_name game_of_others) <> Py.lower (username bot))
    by (vm_compute; discriminate).
  assert (B : Py.lower (black_name game_of_others) <> Py.lower (username bot))
    by (vm_compute; discriminate).
  split; [exact W|]. split; [exact B|].
  exact (proj1 (proj2 (C5_unresolved_opponent Std_Variant_of
                         default_max_str_digits bot game_of_others W B))).
Defined.

(** C6 fails on the code: for the time control [inf+0], whatever the
    variant, [int] raises OverflowError on the infinite number of
    seconds; the [except] clause does not list it, so that
    [_create_rematch_challenge] raises instead of returning None, and
    [offer_rematch] raises instead of returning false. *)
Theorem C6_overflow_escapes :
  Std_Variant_of (variant game_inf) = None /\
  _create_rematch_challenge Std_Variant_of default_max_str_digits
    bot game_inf "Alice" = Raise OverflowError /\
  offer_rematch Std_Variant_of default_max_str_digits bot game_inf
  = (Raise OverflowError, bot).
Proof. vm_compute. repeat split. Qed.

Lemma C7_pending_request_witness :
  (reachable Std_Variant_of default_max_str_digits (after_offers 1 game_alice) /\
   exists request,
     get_rematch_challenge_request Std_Variant_of default_max_str_digits
       (after_offers 1 game_alice) = Return (Some request) /\
     color request = BLACK) /\
  (reachable Std_Variant_of default_max_str_digits
     (after_offers 1 game_as_black) /\
   exists request,
     get_rematch_challenge_request Std_Variant_of default_max_str_digits
       (after_offers 1 game_as_black) = Return (Some request) /\
     color request = WHITE).
Proof.
  split.
  - assert (R : reachable Std_Variant_of default_max_str_digits
                  (after_offers 1 game_alice)).
    { apply (reachable_step _ _ (Offer_rematch game_alice) bot).
      apply reachable_init. }
    split; [exact R|].
    destruct (proj2 (C7_pending_request Std_Variant_of default_max_str_digits
                       (after_offers 1 game_alice) R) "alice" game_alice)
      as (request & Hget & Hblack & _);
      [vm_compute; reflexivity | vm_compute; reflexivity |].
    exists request. split; [exact Hget|].
    apply Hblack. vm_compute. reflexivity.
  - assert (R : reachable Std_Variant_of default_max_str_digits
                  (after_offers 1 game_as_black)).
    { apply (reachable_step _ _ (Offer_rematch game_as_black) bot).
      apply reachable_init. }
    split; [exact R|].
    destruct (proj2 (C7_pending_request Std_Variant_of default_max_str_digits
                       (after_offers 1 game_as_black) R) "alice" game_as_black)
      as (request & Hget & _ & Hwhite);
      [vm_compute; reflexivity | vm_compute; reflexivity |].
    exists request. split; [exact Hget|].
    apply Hwhite. vm_compute. discriminate.
Defined.

(** C8 as stated fails: the request returned after the offer names the
    opponent by the lower-cased key, [alice], not by [Alice]. *)
Lemma C8_opponent_name_counterexample :
  exists request,
    get_rematch_challenge_request Std_Variant_of default_max_str_digits
      (after_offers 1 game_alice) = Return (Some request) /\
    opponent_username request = "alice" /\
    opponent_username request <> "Alice".
Proof. eexists. vm_compute. repeat split. discriminate. Qed.

Lemma C8_end_to_end_witness :
  exists self1 self2,
    offer_rematch Std_Variant_of default_max_str_digits bot game_alice
    = (Return true, self1) /\
    get_rematch_challenge_request Std_Variant_of default_max_str_digits self1 =
      Return (Some {| opponent_username := "alice";
                      initial_time := 180;
                      increment := 2;
                      challenge_rated := true;
                      color := BLACK;
                      challenge_variant := STANDARD;
                      timeout := timeout_seconds (rematch (config bot)) |}) /\
    pending_rematch (on_rematch_declined self1 "Alice") = None /\
    get_rematch_challenge_request Std_Variant_of default_max_str_digits
      (on_rematch_declined self1 "Alice") = Return None /\
    offer_rematch Std_Variant_of default_max_str_digits
      (on_rematch_declined self1 "Alice") game_alice = (Return true, self2) /\
    rematch_counts self2 !! "alice" = Some 2.
Proof.
  apply (C8_end_to_end Std_Variant_of default_max_str_digits bot game_alice
           STANDARD); reflexivity.
Defined.

Lemma C10_offer_overwrites_pending_witness :
  pending_rematch (after_offers 1 game_alice) = Some "alice" /\
  exists opponent_b,
    _get_opponent_name (after_offers 1 game_alice) game_bob
    = Some opponent_b /\
    pending_rematch
      (snd (offer_rematch Std_Variant_of default_max_str_digits
              (after_offers 1 game_alice) game_bob))
    = Some (Py.lower opponent_b) /\
    last_game_info
      (snd (offer_rematch Std_Variant_of default_max_str_digits
              (after_offers 1 game_alice) game_bob))
    = Some game_bob /\
    ("alice" <> Py.lower opponent_b ->
     pending_rematch
       (snd (offer_rematch Std_Variant_of default_max_str_digits
               (after_offers 1 game_alice) game_bob))
     <> Some "alice") /\
    fst (offer_rematch Std_Variant_of default_max_str_digits
           (clear_pending_rematch (after_offers 1 game_alice)) game_bob)
    = Return true.
Proof.
  split; [vm_compute; reflexivity|].
  apply (C10_offer_overwrites_pending Std_Variant_of default_max_str_digits
           (after_offers 1 game_alice) game_bob "alice");
    vm_compute; reflexivity.
Defined.

(** ** Further properties of the built-ins *)

Lemma lower_ascii_idem (c : ascii) :
  Py.lower_ascii (Py.lower_ascii c) = Py.lower_ascii c.
Proof. destruct c as [[] [] [] [] [] [] [] []]; reflexivity. Qed.

Lemma lower_lower (s : string) : Py.lower (Py.lower s) = Py.lower s.
Proof.
  induction s as [|c s IH]; simpl; [reflexivity|].
  rewrite lower_ascii_idem, IH. reflexivity.
Qed.

Lemma split_not_nil (sep : ascii) (s : string) : Py.split sep s <> [].
Proof.
  destruct s as [|c s]; simpl; [discriminate|].
  destruct (Ascii.eqb c sep); [discriminate|].
  destruct (Py.split sep s); discriminate.
Qed.

(** Joining the pieces of a split with the separator gives the string
    back. *)
Lemma join_split (sep : ascii) (s : string) :
  Py.join (String sep "") (Py.split sep s) = s.
Proof.
  induction s as [|c s IH]; simpl; [reflexivity|].
  destruct (Ascii.eqb_spec c sep) as [->|Hne].
  - pose proof (split_not_nil sep s) as Hnil.
    destruct (Py.split sep s) as [|h t]; [congruence|].
    simpl in *. rewrite IH. reflexivity.
  - pose proof (split_not_nil sep s) as Hnil.
    destruct (Py.split sep s) as [|h t]; [congruence|].
    destruct t as [|h' t]; simpl in *; rewrite <- IH; reflexivity.
Qed.

(** No piece of a split contains the separator. *)
Lemma split_pieces (sep : ascii) (s : string) :
  Forall (fun piece => ~ In sep (list_ascii_of_string piece)) (Py.split sep s).
Proof.
  induction s as [|c s IH]; simpl.
  - constructor; [simpl; tauto | constructor].
  - destruct (Ascii.eqb_spec c sep) as [->|Hne].
    + constructor; [simpl; tauto | exact IH].
    + destruct (Py.split sep s) as [|h t].
      * constructor; [|constructor]. simpl. intuition congruence.
      * inversion IH as [|? ? Hh Ht]; subst. constructor; [|exact Ht].
        simpl. intuition congruence.
Qed.

(** ** Further properties of the manager *)

Lemma reachable_run_calls {Variant : Type}
    (Variant_of : string -> option Variant) (int_max_str_digits : nat)
    (calls : list call) (self : Rematch_Manager) :
  reachable Variant_of int_max_str_digits self ->
  reachable Variant_of int_max_str_digits
    (run_calls Variant_of int_max_str_digits calls self).
Proof.
  revert self. induction calls as [|c rest IH]; intros self H; simpl.
  - exact H.
  - apply IH. by apply reachable_step.
Qed.

Section Offers.

Context {Variant : Type}.
Variable Variant_of : string -> option Variant.
Variable int_max_str_digits : nat.

Local Abbreviation create_try :=
  (create_rematch_challenge_try Variant_of int_max_str_digits).
Local Abbreviation create :=
  (_create_rematch_challenge Variant_of int_max_str_digits).
Local Abbreviation offer := (offer_rematch Variant_of int_max_str_digits).
Local Abbreviation get_request :=
  (get_rematch_challenge_request Variant_of int_max_str_digits).
Local Abbreviation reach := (reachable Variant_of int_max_str_digits).
Local Abbreviation run := (step Variant_of int_max_str_digits).
Local Abbreviation runs := (run_calls Variant_of int_max_str_digits).
Local Abbreviation key_of := (offered_key Variant_of int_max_str_digits).
Local Abbreviation tally := (offers_to Variant_of int_max_str_digits).

(** An offer is all or nothing: unless [offer_rematch] returns True,
    whether it returns False or raises, no attribute of the manager is
    assigned. *)
Theorem offer_rematch_all_or_nothing self game_info r self' :
  offer_rematch Variant_of int_max_str_digits self game_info = (r, self') ->
  r <> Return true ->
  self' = self.
Proof.
  intros H Hr.
  replace self' with (snd (offer self game_info)) by (rewrite H; reflexivity).
  apply offer_rematch_unchanged. rewrite H. exact Hr.
Qed.

(** The only exception that leaves [offer_rematch] is OverflowError, and
    only for a resolved opponent and a time control [a+b] whose number of
    seconds [float(a) * 60] is infinite; the manager is unchanged. *)
Theorem offer_rematch_raises self game_info e self' :
  offer self game_info = (Raise e, self') ->
  e = OverflowError /\ self' = self /\
  exists opponent_name a b minutes s,
    _get_opponent_name self game_info = Some opponent_name /\
    Py.split "+" (tc_str game_info) = [a; b] /\
    Py.float_of_str a = Return minutes /\
    Py.fmul minutes (Py.float_of_Z 60) = S754_infinity s.
Proof.
  unfold offer_rematch.
  destruct (_get_opponent_name self game_info) as [opp|]; [|discriminate].
  destruct (truthy opp); simpl; [|discriminate].
  destruct (create self game_info opp) as [[request|]|e'] eqn:Hc;
    try discriminate.
  intros [= <- <-].
  apply create_Raise in Hc as (-> & a & b & minutes & s & Hs & Hf & Hinf).
  split; [reflexivity|]. split; [reflexivity|].
  exists opp, a, b, minutes, s. auto.
Qed.

(** A snapshot whose time control does not split into two parts at [+],
    or has a part that [float] or [int] rejects, or whose variant is
    unknown while the number of seconds is finite, cannot be offered:
    no challenge is built, [offer_rematch] returns False and the manager
    is unchanged. *)
Theorem offer_rematch_malformed self game_info :
  (forall a b, Py.split "+" (tc_str game_info) <> [a; b]) \/
  (exists a b e,
      Py.split "+" (tc_str game_info) = [a; b] /\
      (Py.float_of_str a = Raise e \/
       exists minutes t,
         Py.float_of_str a = Return minutes /\
         Py.int_of_float (Py.fmul minutes (Py.float_of_Z 60)) = Return t /\
         (Py.int_of_str int_max_str_digits b = Raise e \/
          Variant_of (variant game_info) = None))) ->
  (forall opponent_name,
      create self game_info opponent_name = Return None) /\
  offer self game_info = (Return false, self).
Proof.
  intros H.
  assert (Hc : forall o, create self game_info o = Return None)
    by (intros o; by apply create_malformed_None).
  split; [exact Hc|]. unfold offer_rematch.
  destruct (_get_opponent_name self game_info) as [opp|]; [|reflexivity].
  destruct (truthy opp); simpl; [|reflexivity].
  rewrite Hc. reflexivity.
Qed.

(** An opponent with an empty name counts as unresolved: when the bot's
    side is found but the other name is empty, [should_offer_rematch]
    and [offer_rematch] return False and the manager is unchanged. *)
Theorem offer_rematch_empty_name self game_info :
  _get_opponent_name self game_info = Some "" ->
  (forall game_result winner,
      should_offer_rematch self game_info game_result winner = false) /\
  offer self game_info = (Return false, self).
Proof.
  intros H. split.
  - intros game_result winner. unfold should_offer_rematch. rewrite H.
    reflexivity.
  - unfold offer_rematch. rewrite H. reflexivity.
Qed.

(** *** Counts *)

(** What one call does to the count of one key. *)
Lemma step_get_count c self key :
  get_count (rematch_counts (run c self)) key
  = get_count (rematch_counts self) key
    + match key_of c self with
      | Some k => if String.eqb k key then 1 else 0
      | None => 0
      end.
Proof.
  destruct c; simpl; try lia.
  destruct (offer_rematch_cases Variant_of int_max_str_digits self game_info)
    as [[self' H] | H].
  - rewrite H. simpl.
    apply offer_rematch_true in H.
    destruct H as (opp & r & -> & _ & _ & _ & _ & -> & _). simpl.
    unfold get_count.
    destruct (String.eqb_spec (Py.lower opp) key) as [->|Hne].
    + rewrite lookup_insert_eq. reflexivity.
    + rewrite lookup_insert_ne by exact Hne. lia.
  - rewrite H.
    destruct (offer self game_info) as [[[|]|e] s'] eqn:Ho; simpl; try lia.
    exfalso. simpl in H. subst s'.
    apply offer_rematch_true in Ho.
    destruct Ho as (opp & r & _ & _ & _ & _ & _ & Hcounts & _).
    assert (Hk : rematch_counts self !! Py.lower opp
                 = Some (get_count (rematch_counts self) (Py.lower opp) + 1))
      by (rewrite Hcounts at 1; apply lookup_insert_eq).
    unfold get_count in Hk. destruct (rematch_counts self !! Py.lower opp);
      simpl in Hk; [injection Hk; lia | discriminate].
Qed.

(** What one call does to an entry: it stays, and does not shrink. *)
Lemma step_lookup c self key v :
  rematch_counts self !! key = Some v ->
  exists v', rematch_counts (run c self) !! key = Some v' /\ v <= v'.
Proof.
  intros Hv.
  destruct c; simpl; try (exists v; split; [exact Hv | lia]).
  destruct (offer_rematch_cases Variant_of int_max_str_digits self game_info)
    as [[self' H] | H]; rewrite H; [|exists v; split; [exact Hv | lia]].
  simpl. apply offer_rematch_true in H.
  destruct H as (opp & r & _ & _ & _ & _ & _ & -> & _).
  destruct (String.eqb_spec (Py.lower opp) key) as [->|Hne].
  - rewrite lookup_insert_eq. eexists. split; [reflexivity|].
    unfold get_count. rewrite Hv. simpl. lia.
  - rewrite lookup_insert_ne by exact Hne. exists v. split; [exact Hv | lia].
Qed.

(** [rematch_counts] tallies the offers that returned True: after any
    sequence of calls, the count of a key is its count before plus the
    number of successful offers to that key in the sequence; from
    [__init__] it is that number. *)
Theorem rematch_counts_tally calls key :
  (forall self,
      get_count (rematch_counts (runs calls self)) key
      = get_count (rematch_counts self) key + tally key calls self) /\
  (forall cfg name,
      get_count (rematch_counts (runs calls (__init__ cfg name))) key
      = tally key calls (__init__ cfg name)).
Proof.
  assert (General : forall self,
      get_count (rematch_counts (runs calls self)) key
      = get_count (rematch_counts self) key + tally key calls self).
  { induction calls as [|c rest IH]; intros self; simpl; [lia|].
    rewrite IH, step_get_count. lia. }
  split; [exact General|].
  intros cfg name. rewrite General. reflexivity.
Qed.

(** No call removes or lowers an entry of [rematch_counts]: an entry
    present before a sequence of calls is present after it, with a value
    at least as large. *)
Theorem rematch_counts_never_decrease calls self key v :
  rematch_counts self !! key = Some v ->
  exists v',
    rematch_counts (run_calls Variant_of int_max_str_digits calls self) !! key
    = Some v' /\
    v <= v'.
Proof.
  revert self v. induction calls as [|c rest IH]; intros self v Hv; simpl.
  - exists v. split; [exact Hv | lia].
  - destruct (step_lookup c self key v Hv) as (v1 & Hv1 & Hle).
    destruct (IH _ _ Hv1) as (v2 & Hv2 & Hle2).
    exists v2. split; [exact Hv2 | lia].
Qed.

(** *** Invariants of the reachable states *)

Lemma reachable_keys self :
  reach self ->
  (forall k v, rematch_counts self !! k = Some v ->
     1 <= v /\ Py.lower k = k /\ truthy k = true) /\
  (forall key, pending_rematch self = Some key ->
     Py.lower key = key /\ truthy key = true /\
     exists v, rematch_counts self !! key = Some v) /\
  rematch_offered self = false.
Proof.
  induction 1 as [cfg name | c self Hreach (IHc & IHp & IHo)].
  - split; [|split]; [|intros key [=] | reflexivity].
    intros k v. simpl. rewrite lookup_empty. discriminate.
  - destruct c; simpl.
    + split; [|split]; assumption.
    + destruct (offer_rematch_cases Variant_of int_max_str_digits
                  self game_info) as [[self' H] | H]; rewrite H;
        [|split; [|split]; assumption].
      simpl. pose proof (offer_rematch_true _ _ _ _ _ H) as Ht.
      destruct Ht as (opp & r & _ & Ht & _ & _ & _ & Hc & _ & Hp).
      split; [|split].
      * intros k v. rewrite Hc.
        destruct (String.eqb_spec (Py.lower opp) k) as [<-|Hne].
        -- rewrite lookup_insert_eq. intros [= <-].
           split; [|split; [apply lower_lower | by apply lower_truthy]].
           unfold get_count.
           destruct (rematch_counts self !! Py.lower opp) as [v|] eqn:Hv;
             simpl; [|lia].
           destruct (IHc _ _ Hv) as (Hle & _). lia.
        -- rewrite lookup_insert_ne by exact Hne. apply IHc.
      * intros key. rewrite Hp, Hc. intros [= <-].
        split; [apply lower_lower|]. split; [by apply lower_truthy|].
        rewrite lookup_insert_eq. eauto.
      * unfold offer_rematch in H.
        destruct (_get_opponent_name self game_info); [|discriminate].
        destruct (truthy _); simpl in H; [|discriminate].
        destruct (create self game_info _) as [[?|]|?]; try discriminate.
        injection H as <-. reflexivity.
    + split; [|split]; [assumption | intros key [=] | reflexivity].
    + split; [|split]; [assumption | intros key [=] | reflexivity].
    + split; [|split]; [assumption | assumption | reflexivity].
    + split; [|split]; [assumption | intros key [=] | reflexivity].
    + split; [|split]; assumption.
Qed.

(** In every state reached from [__init__], every key of
    [rematch_counts] is a non-empty lower-case name, and its count is at
    least 1. *)
Theorem rematch_counts_entries self k v :
  reach self ->
  rematch_counts self !! k = Some v ->
  1 <= v /\ Py.lower k = k /\ k <> "".
Proof.
  intros Hreach Hv.
  destruct (proj1 (reachable_keys self Hreach) k v Hv) as (Hle & Hl & Ht).
  split; [exact Hle|]. split; [exact Hl|].
  intros ->. discriminate.
Qed.

(** In every state reached from [__init__], the pending opponent is a
    non-empty lower-case name that has been counted at least once. *)
Theorem pending_rematch_counted self key :
  reach self ->
  pending_rematch self = Some key ->
  Py.lower key = key /\ key <> "" /\
  exists v, rematch_counts self !! key = Some v /\ 1 <= v.
Proof.
  intros Hreach Hkey.
  destruct (reachable_keys self Hreach) as (Hc & Hp & _).
  destruct (Hp key Hkey) as (Hl & Ht & v & Hv).
  split; [exact Hl|]. split; [intros ->; discriminate|].
  exists v. split; [exact Hv|]. apply (Hc key v Hv).
Qed.

(** No method ever sets [rematch_offered]: it is False after every
    sequence of calls on a manager built by [__init__]. *)
Theorem rematch_offered_never_set calls cfg name :
  rematch_offered
    (run_calls Variant_of int_max_str_digits calls (__init__ cfg name))
  = false.
Proof.
  apply reachable_keys, reachable_run_calls, reachable_init.
Qed.

(** Whether an offer succeeds does not depend on what the manager did
    before: after any sequence of calls, [offer_rematch] on a snapshot
    returns, or raises, what it would have before them. *)
Theorem offer_rematch_history_free calls self game_info :
  fst (offer_rematch Variant_of int_max_str_digits
         (run_calls Variant_of int_max_str_digits calls self) game_info)
  = fst (offer_rematch Variant_of int_max_str_digits self game_info).
Proof.
  assert (Ext : forall s1 s2, config s1 = config s2 ->
                              username s1 = username s2 ->
                              fst (offer s1 game_info) = fst (offer s2 game_info)).
  { intros s1 s2 Hc Hu. unfold offer_rematch.
    rewrite (get_opponent_name_ext s2 s1) by exact Hu.
    destruct (_get_opponent_name s2 game_info) as [opp|]; [|reflexivity].
    destruct (truthy opp); simpl; [|reflexivity].
    unfold _create_rematch_challenge.
    rewrite (create_try_ext _ _ s2 s1) by assumption.
    destruct (create_try s2 game_info opp) as [r|[]]; reflexivity. }
  revert self. induction calls as [|c rest IH]; intros self; simpl;
    [reflexivity|].
  rewrite IH. apply Ext; [apply step_config | apply step_username].
Qed.

(** *** Offers and what follows them *)

(** After a successful offer, [get_rematch_challenge_request] returns the
    challenge that [offer_rematch] built, with the opponent's name in
    lower case. *)
Theorem offer_then_get_request self game_info self1 :
  offer self game_info = (Return true, self1) ->
  exists opponent_name request,
    _get_opponent_name self game_info = Some opponent_name /\
    create self game_info opponent_name = Return (Some request) /\
    opponent_username request = opponent_name /\
    get_request self1 =
      Return (Some {| opponent_username := Py.lower opponent_name;
                      initial_time := initial_time request;
                      increment := increment request;
                      challenge_rated := challenge_rated request;
                      color := color request;
                      challenge_variant := challenge_variant request;
                      timeout := timeout request |}).
Proof.
  intros H. apply offer_rematch_true in H.
  destruct H as (opp & r & Ho & Ht & Hr & Hc & Hu & _ & Hl & Hp).
  exists opp, r. split; [exact Ho|]. split; [by apply create_Some|].
  pose proof Hr as Hr'. apply create_try_Return in Hr'.
  destruct Hr' as (a & b & minutes & t & n & v & Hs & Hf & Hti & Hn & Hv & ->).
  split; [reflexivity|].
  unfold get_rematch_challenge_request. rewrite Hp, Hl.
  rewrite (lower_truthy _ Ht). apply create_Some.
  rewrite (create_try_ext _ _ self self1) by assumption.
  apply create_try_Return. exists a, b, minutes, t, n, v.
  repeat split; assumption.
Qed.

(** After a successful offer, [should_offer_rematch] on the same
    snapshot returns False, also after [on_game_finished], and returns
    True again after [on_rematch_accepted], [on_rematch_declined]
    (whatever name they are given) or [clear_pending_rematch]. *)
Theorem should_offer_after_resolution self game_info self1 name result winner :
  offer self game_info = (Return true, self1) ->
  should_offer_rematch self1 game_info result winner = false /\
  should_offer_rematch (on_game_finished self1 name) game_info result winner
  = false /\
  should_offer_rematch (on_rematch_accepted self1 name) game_info result winner
  = true /\
  should_offer_rematch (on_rematch_declined self1 name) game_info result winner
  = true /\
  should_offer_rematch (clear_pending_rematch self1) game_info result winner
  = true.
Proof.
  intros H. apply offer_rematch_true in H.
  destruct H as (opp & r & Ho & Ht & _ & _ & Hu & _ & _ & Hp).
  assert (Ho1 : forall s, username s = username self1 ->
                          _get_opponent_name s game_info = Some opp).
  { intros s Hs. rewrite (get_opponent_name_ext self s); [exact Ho|].
    congruence. }
  unfold should_offer_rematch.
  rewrite !Ho1 by reflexivity. simpl. rewrite Ht, Hp. simpl.
  rewrite String.eqb_refl. repeat split.
Qed.

(** While an offer is pending, [should_offer_rematch] tells opponents
    apart by their lower-cased names: for a snapshot with a resolved,
    non-empty opponent it returns False exactly when that name, case
    aside, is the pending opponent's. *)
Theorem should_offer_same_opponent self game_info1 self1 game_info2
    opponent1 opponent2 result winner :
  offer self game_info1 = (Return true, self1) ->
  _get_opponent_name self game_info1 = Some opponent1 ->
  _get_opponent_name self1 game_info2 = Some opponent2 ->
  opponent2 <> "" ->
  (should_offer_rematch self1 game_info2 result winner = false <->
   Py.lower opponent2 = Py.lower opponent1).
Proof.
  intros H Ho1 Ho2 Hne. apply offer_rematch_true in H.
  destruct H as (opp & r & Ho & _ & _ & _ & _ & _ & _ & Hp).
  assert (opp = opponent1) as -> by congruence.
  unfold should_offer_rematch. rewrite Ho2, Hp. simpl.
  assert (truthy opponent2 = true) as ->
    by (destruct opponent2; [congruence | reflexivity]).
  simpl. destruct (String.eqb_spec (Py.lower opponent1) (Py.lower opponent2));
    split; intros; congruence.
Qed.

(** Accepting and declining are one operation that ignores the name it
    is given; it is idempotent, it absorbs [on_game_finished], and
    [clear_pending_rematch], itself idempotent, absorbs all three. *)
Theorem resolution_methods_compose self n m :
  on_rematch_declined self n = on_rematch_accepted self m /\
  on_rematch_accepted (on_rematch_accepted self n) m
  = on_rematch_accepted self n /\
  on_rematch_accepted (on_game_finished self n) m
  = on_rematch_accepted self n /\
  on_game_finished (on_rematch_accepted self n) m
  = on_rematch_accepted self n /\
  clear_pending_rematch (on_rematch_accepted self n)
  = clear_pending_rematch self /\
  clear_pending_rematch (on_game_finished self n)
  = clear_pending_rematch self /\
  clear_pending_rematch (clear_pending_rematch self)
  = clear_pending_rematch self.
Proof. repeat split. Qed.

(** *** The time control of a challenge *)

(** When a challenge is built, the time control is [a+b] with no other
    [+] in it: [a] is accepted by [float], [b] by [int] and is the
    request's increment, and the variant is a member of the
    enumeration. *)
Theorem built_time_control self game_info opponent_name request :
  create self game_info opponent_name = Return (Some request) ->
  exists a b minutes,
    tc_str game_info = a ++ "+" ++ b /\
    ~ In "+"%char (list_ascii_of_string a) /\
    ~ In "+"%char (list_ascii_of_string b) /\
    Py.float_of_str a = Return minutes /\
    Py.int_of_str int_max_str_digits b = Return (increment request) /\
    Variant_of (variant game_info) = Some (challenge_variant request).
Proof.
  intros H. apply create_Some, create_try_Return in H.
  destruct H as (a & b & minutes & t & n & v & Hs & Hf & Ht & Hn & Hv & ->).
  exists a, b, minutes.
  pose proof (join_split "+" (tc_str game_info)) as Hj.
  pose proof (split_pieces "+" (tc_str game_info)) as Hp.
  rewrite Hs in Hj, Hp. simpl in Hj.
  inversion Hp as [|? ? Ha Hp']; subst. inversion Hp' as [|? ? Hb _]; subst.
  repeat split; auto.
Qed.

(** When a challenge is built, the number of seconds [float(a) * 60] is
    a finite float, and the request's initial time is that number
    truncated toward zero. *)
Theorem initial_time_truncated self game_info opponent_name request :
  create self game_info opponent_name = Return (Some request) ->
  exists a b minutes,
    Py.split "+" (tc_str game_info) = [a; b] /\
    Py.float_of_str a = Return minutes /\
    ((exists s, Py.fmul minutes (Py.float_of_Z 60) = S754_zero s /\
                initial_time request = 0) \/
     (exists s m e,
         Py.fmul minutes (Py.float_of_Z 60) = S754_finite s m e /\
         initial_time request
         = Z.quot (cond_Zopp s (Zpos m * 2 ^ Z.max e 0)) (2 ^ Z.max (- e) 0))).
Proof.
  intros H. apply create_Some, create_try_Return in H.
  destruct H as (a & b & minutes & t & n & v & Hs & Hf & Ht & Hn & Hv & ->).
  exists a, b, minutes. split; [exact Hs|]. split; [exact Hf|].
  cbn [initial_time].
  destruct (Py.fmul minutes (Py.float_of_Z 60)) as [s|s| |s m e] eqn:Hm;
    try discriminate.
  - left. exists s. split; [reflexivity|]. injection Ht as <-. reflexivity.
  - right. exists s, m, e. split; [reflexivity|].
    by apply int_of_float_truncates.
Qed.

(** *** Titles and ratings *)

(** When the opponent is resolved, the helpers agree on the side that
    is the opponent: the name returned, the rating returned as the
    opponent's and the title tested are of one side, and the rating
    returned as the bot's is of the other.  When the opponent is not
    resolved, the helpers take the bot for the black player.  The rating
    check passes in every case. *)
Theorem rating_helpers_agree self (game_info : Game_Information_players) :
  _check_rating_constraints self game_info = true /\
  (forall opponent_name,
      _get_opponent_name self (game game_info) = Some opponent_name ->
      (opponent_name = black_name (game game_info) /\
       _get_opponent_rating self game_info = black_rating game_info /\
       _is_opponent_bot self game_info = is_BOT (black_title game_info) /\
       _get_our_rating self game_info = white_rating game_info) \/
      (opponent_name = white_name (game game_info) /\
       _get_opponent_rating self game_info = white_rating game_info /\
       _is_opponent_bot self game_info = is_BOT (white_title game_info) /\
       _get_our_rating self game_info = black_rating game_info)) /\
  (_get_opponent_name self (game game_info) = None ->
   _get_opponent_rating self game_info = white_rating game_info /\
   _is_opponent_bot self game_info = is_BOT (white_title game_info) /\
   _get_our_rating self game_info = black_rating game_info).
Proof.
  unfold _get_opponent_name, _get_opponent_rating, _is_opponent_bot,
    _get_our_rating.
  split; [reflexivity|].
  destruct (plays_white self (game game_info)),
    (plays_black self (game game_info)); split;
    try (intros ? [= <-]); try discriminate; auto.
Qed.

End Offers.

(** ** The further properties on the example session *)

Lemma offer_rematch_all_or_nothing_witness :
  offer_rematch Std_Variant_of default_max_str_digits bot game_bad
  = (Return false, bot) /\
  Return false <> Return true /\
  bot = bot.
Proof.
  assert (H : offer_rematch Std_Variant_of default_max_str_digits bot game_bad
              = (Return false, bot)) by (vm_compute; reflexivity).
  assert (N : @Return bool false <> Return true) by discriminate.
  split; [exact H|]. split; [exact N|].
  exact (offer_rematch_all_or_nothing Std_Variant_of default_max_str_digits
           bot game_bad (Return false) bot H N).
Defined.

Lemma offer_rematch_raises_witness :
  offer_rematch Std_Variant_of default_max_str_digits bot game_inf
  = (Raise OverflowError, bot) /\
  exists opponent_name a b minutes s,
    _get_opponent_name bot game_inf = Some opponent_name /\
    Py.split "+" (tc_str game_inf) = [a; b] /\
    Py.float_of_str a = Return minutes /\
    Py.fmul minutes (Py.float_of_Z 60) = S754_infinity s.
Proof.
  assert (H : offer_rematch Std_Variant_of default_max_str_digits bot game_inf
              = (Raise OverflowError, bot)) by (vm_compute; reflexivity).
  split; [exact H|].
  exact (proj2 (proj2 (offer_rematch_raises Std_Variant_of
                         default_max_str_digits bot game_inf
                         OverflowError bot H))).
Defined.

Lemma offer_rematch_malformed_witness :
  (forall a b, Py.split "+" (tc_str game_bad) <> [a; b]) /\
  offer_rematch Std_Variant_of default_max_str_digits bot game_bad
  = (Return false, bot).
Proof.
  assert (H : forall a b, Py.split "+" (tc_str game_bad) <> [a; b])
    by (intros a b; vm_compute; discriminate).
  split; [exact H|].
  exact (proj2 (offer_rematch_malformed Std_Variant_of default_max_str_digits
                  bot game_bad (or_introl H))).
Defined.

Lemma offer_rematch_empty_name_witness :
  _get_opponent_name bot game_nameless = Some "" /\
  offer_rematch Std_Variant_of default_max_str_digits bot game_nameless
  = (Return false, bot).
Proof.
  assert (H : _get_opponent_name bot game_nameless = Some "")
    by (vm_compute; reflexivity).
  split; [exact H|].
  exact (proj2 (offer_rematch_empty_name Std_Variant_of default_max_str_digits
                  bot game_nameless H)).
Defined.

Lemma rematch_counts_never_decrease_witness :
  rematch_counts (after_offers 1 game_alice) !! "alice" = Some 1 /\
  exists v',
    rematch_counts
      (run_calls Std_Variant_of default_max_str_digits session
         (after_offers 1 game_alice)) !! "alice" = Some v' /\
    1 <= v'.
Proof.
  assert (H : rematch_counts (after_offers 1 game_alice) !! "alice" = Some 1)
    by (vm_compute; reflexivity).
  split; [exact H|].
  exact (rematch_counts_never_decrease Std_Variant_of default_max_str_digits
           session (after_offers 1 game_alice) "alice" 1 H).
Defined.

Lemma rematch_counts_entries_witness :
  reachable Std_Variant_of default_max_str_digits
    (run_calls Std_Variant_of default_max_str_digits session bot) /\
  rematch_counts (run_calls Std_Variant_of default_max_str_digits session bot)
    !! "alice" = Some 2 /\
  (1 <= 2 /\ Py.lower "alice" = "alice" /\ "alice" <> "").
Proof.
  assert (R : reachable Std_Variant_of default_max_str_digits
                (run_calls Std_Variant_of default_max_str_digits session bot))
    by (apply reachable_run_calls, reachable_init).
  assert (H : rematch_counts
                (run_calls Std_Variant_of default_max_str_digits session bot)
                !! "alice" = Some 2) by (vm_compute; reflexivity).
  split; [exact R|]. split; [exact H|].
  exact (rematch_counts_entries Std_Variant_of default_max_str_digits
           _ "alice" 2 R H).
Defined.

Lemma pending_rematch_counted_witness :
  reachable Std_Variant_of default_max_str_digits (after_offers 2 game_alice) /\
  pending_rematch (after_offers 2 game_alice) = Some "alice" /\
  exists v, rematch_counts (after_offers 2 game_alice) !! "alice" = Some v /\
            1 <= v.
Proof.
  assert (R : reachable Std_Variant_of default_max_str_digits
                (after_offers 2 game_alice))
    by apply reachable_after_offers.
  assert (H : pending_rematch (after_offers 2 game_alice) = Some "alice")
    by (vm_compute; reflexivity).
  split; [exact R|]. split; [exact H|].
  exact (proj2 (proj2 (pending_rematch_counted Std_Variant_of
                         default_max_str_digits _ "alice" R H))).
Defined.

Lemma offer_then_get_request_witness :
  offer_rematch Std_Variant_of default_max_str_digits bot game_bob
  = (Return true, after_offers 1 game_bob) /\
  exists opponent_name request,
    _get_opponent_name bot game_bob = Some opponent_name /\
    _create_rematch_challenge Std_Variant_of default_max_str_digits
      bot game_bob opponent_name = Return (Some request) /\
    opponent_username request = opponent_name /\
    get_rematch_challenge_request Std_Variant_of default_max_str_digits
      (after_offers 1 game_bob) =
      Return (Some {| opponent_username := Py.lower opponent_name;
                      initial_time := initial_time request;
                      increment := increment request;
                      challenge_rated := challenge_rated request;
                      color := color request;
                      challenge_variant := challenge_variant request;
                      timeout := timeout request |}).
Proof.
  assert (H : offer_rematch Std_Variant_of default_max_str_digits bot game_bob
              = (Return true, after_offers 1 game_bob))
    by (vm_compute; reflexivity).
  split; [exact H|].
  exact (offer_then_get_request Std_Variant_of default_max_str_digits
           bot game_bob _ H).
Defined.

Lemma should_offer_after_resolution_witness :
  offer_rematch Std_Variant_of default_max_str_digits bot game_alice
  = (Return true, after_offers 1 game_alice) /\
  should_offer_rematch (after_offers 1 game_alice) game_alice "draw" None
  = false /\
  should_offer_rematch
    (on_rematch_declined (after_offers 1 game_alice) "Bob")
    game_alice "draw" None = true.
Proof.
  assert (H : offer_rematch Std_Variant_of default_max_str_digits bot game_alice
              = (Return true, after_offers 1 game_alice))
    by (vm_compute; reflexivity).
  pose proof (should_offer_after_resolution Std_Variant_of
                default_max_str_digits bot game_alice _ "Bob" "draw" None H)
    as (H1 & _ & _ & H4 & _).
  split; [exact H|]. split; [exact H1 | exact H4].
Defined.

Lemma should_offer_same_opponent_witness :
  offer_rematch Std_Variant_of default_max_str_digits bot game_alice
  = (Return true, after_offers 1 game_alice) /\
  _get_opponent_name bot game_alice = Some "Alice" /\
  _get_opponent_name (after_offers 1 game_alice) game_ALICE = Some "ALICE" /\
  "ALICE" <> "" /\
  should_offer_rematch (after_offers 1 game_alice) game_ALICE "draw" None
  = false.
Proof.
  assert (H : offer_rematch Std_Variant_of default_max_str_digits bot game_alice
              = (Return true, after_offers 1 game_alice))
    by (vm_compute; reflexivity).
  assert (H1 : _get_opponent_name bot game_alice = Some "Alice")
    by (vm_compute; reflexivity).
  assert (H2 : _get_opponent_name (after_offers 1 game_alice) game_ALICE
               = Some "ALICE") by (vm_compute; reflexivity).
  assert (N : "ALICE" <> "") by discriminate.
  split; [exact H|]. split; [exact H1|]. split; [exact H2|].
  split; [exact N|].
  apply (proj2 (should_offer_same_opponent Std_Variant_of
                  default_max_str_digits bot game_alice _ game_ALICE
                  "Alice" "ALICE" "draw" None H H1 H2 N)).
  vm_compute. reflexivity.
Defined.

Lemma built_time_control_witness :
  _create_rematch_challenge Std_Variant_of default_max_str_digits
    bot game_bob "Bob"
  = Return (Some {| opponent_username := "Bob";
                    initial_time := 300;
                    increment := 3;
                    challenge_rated := true;
                    color := BLACK;
                    challenge_variant := STANDARD;
                    timeout := 30 |}) /\
  exists a b minutes,
    tc_str game_bob = a ++ "+" ++ b /\
    ~ In "+"%char (list_ascii_of_string a) /\
    ~ In "+"%char (list_ascii_of_string b) /\
    Py.float_of_str a = Return minutes /\
    Py.int_of_str default_max_str_digits b = Return 3 /\
    Std_Variant_of (variant game_bob) = Some STANDARD.
Proof.
  assert (H : _create_rematch_challenge Std_Variant_of default_max_str_digits
                bot game_bob "Bob"
              = Return (Some {| opponent_username := "Bob";
                                initial_time := 300;
                                increment := 3;
                                challenge_rated := true;
                                color := BLACK;
                                challenge_variant := STANDARD;
                                timeout := 30 |}))
    by (vm_compute; reflexivity).
  split; [exact H|].
  exact (built_time_control Std_Variant_of default_max_str_digits
           bot game_bob "Bob" _ H).
Defined.

Lemma initial_time_truncated_witness :
  _create_rematch_challenge Std_Variant_of default_max_str_digits
    bot game_sixteenth "Alice"
  = Return (Some {| opponent_username := "Alice";
                    initial_time := 3;
                    increment := 0;
                    challenge_rated := true;
                    color := BLACK;
                    challenge_variant := STANDARD;
                    timeout := 30 |}) /\
  exists a b minutes,
    Py.split "+" (tc_str game_sixteenth) = [a; b] /\
    Py.float_of_str a = Return minutes /\
    ((exists s, Py.fmul minutes (Py.float_of_Z 60) = S754_zero s /\ 3 = 0) \/
     (exists s m e,
         Py.fmul minutes (Py.float_of_Z 60) = S754_finite s m e /\
         3 = Z.quot (cond_Zopp s (Zpos m * 2 ^ Z.max e 0))
                    (2 ^ Z.max (- e) 0))).
Proof.
  assert (H : _create_rematch_challenge Std_Variant_of default_max_str_digits
                bot game_sixteenth "Alice"
              = Return (Some {| opponent_username := "Alice";
                                initial_time := 3;
                                increment := 0;
                                challenge_rated := true;
                                color := BLACK;
                                challenge_variant := STANDARD;
                                timeout := 30 |}))
    by (vm_compute; reflexivity).
  split; [exact H|].
  exact (initial_time_truncated Std_Variant_of default_max_str_digits
           bot game_sixteenth "Alice" _ H).
Defined.

Lemma rating_helpers_agree_witness :
  _get_opponent_name bot (game game_alice_players) = Some "Alice" /\
  _get_opponent_rating bot game_alice_players = Some 2100 /\
  _get_our_rating bot game_alice_players = Some 2000 /\
  _is_opponent_bot bot game_alice_players = true.
Proof.
  assert (H : _get_opponent_name bot (game game_alice_players) = Some "Alice")
    by (vm_compute; reflexivity).
  split; [exact H|].
  destruct (proj1 (proj2 (rating_helpers_agree bot game_alice_players))
              "Alice" H)
    as [(_ & Hr & Hb & Ho) | (Hn & _)].
  - rewrite Hr, Hb, Ho. repeat split.
  - discriminate Hn.
Defined.
